(** * Report.tsx: the embedded-report page of the App-Owns-Data React client

    A shallow embedding of [App/components/pages/Report.tsx].  The component
    is a React function component: every render closes its functions over
    the values of that render (a [Snapshot]); the functions call state
    setters, the Power BI client, the backend Web API and the browser, and
    [async] functions are cut at each [await] into a synchronous prefix and
    a suspended [Task] that the event loop resumes later.

    The embedding follows that shape:
    - data: the DTOs, the [useState] cells ([CompState]) and the closure
      values of one render ([Snapshot]);
    - effects: a state-and-exception monad [M] over a [World] that records,
      in order, every call that leaves the component ([Action]);
    - the event loop: [step], driven by React commits, timers, events of an
      embedded report and settled promises. *)

From Stdlib Require Import String Ascii ZArith List Bool Lia DecimalString.
Import ListNotations.

Local Open Scope string_scope.
Local Open Scope Z_scope.

(* ===================================================================== *)
(** ** JavaScript values used by the component                            *)
(* ===================================================================== *)

(** What an [async] function of the component can fail with: reading a
    property of [null] or [undefined], or an awaited promise that was
    rejected. *)
Inductive JsError : Type :=
| TypeError (reading : string)
| Rejection.

(** Outcome of running a piece of JavaScript to completion. *)
Inductive Result (A : Type) : Type :=
| Ok (a : A)
| Throw (e : JsError).
Arguments Ok {A} a.
Arguments Throw {A} e.

(** A date string, seen through [new Date(s).getTime()]: either it parses
    to an instant (milliseconds since the epoch) or it does not. *)
Inductive DateString : Type :=
| DateAt (ms : Z)
| DateInvalid.

(** A JavaScript number that is an integer or [NaN] ([None]). *)
Definition JsNumber := option Z.

(** [new Date(x).getTime()] for [x : string | null]; [new Date(null)] is
    the epoch. *)
Definition getTime (x : option DateString) : JsNumber :=
  match x with
  | None => Some 0
  | Some (DateAt ms) => Some ms
  | Some DateInvalid => None
  end.

(** [String(n)] for an integral number. *)
Definition String_of (n : JsNumber) : string :=
  match n with
  | Some z => NilZero.string_of_int (Z.to_int z)
  | None => "NaN"
  end.

Fixpoint repeat_string (n : nat) (fill : string) : string :=
  match n with
  | O => ""
  | S k => fill ++ repeat_string k fill
  end.

(** [s.padStart(target, fill)] for a one-character [fill]. *)
Definition padStart (s : string) (target : nat) (fill : string) : string :=
  repeat_string (target - String.length s) fill ++ s.

(** Truthiness of a string: the empty string is falsy. *)
Definition truthy_string (s : string) : bool :=
  negb (String.eqb s "").

(** String concatenation of a value that may be [null]. *)
Definition concat_nullable (s : option string) : string :=
  match s with
  | Some v => v
  | None => "null"
  end.

(** [a === b] where [a] may be [null] / [undefined] and [b] is a string. *)
Definition strict_eq_string (a : option string) (b : string) : bool :=
  match a with
  | Some v => String.eqb v b
  | None => false
  end.

(** [a === b] where both sides may be [undefined]. *)
Definition strict_eq_nullable (a b : option string) : bool :=
  match a, b with
  | Some x, Some y => String.eqb x y
  | None, None => true
  | _, _ => false
  end.

(** [new URLSearchParams(search).get(key)]: the first value of [key], or
    [null]. *)
Fixpoint URLSearchParams_get (params : list (string * string)) (key : string)
  : option string :=
  match params with
  | [] => None
  | (k, v) :: rest =>
      if String.eqb k key then Some v else URLSearchParams_get rest key
  end.

(* ===================================================================== *)
(** ** Data transfer objects ([models/models])                            *)
(* ===================================================================== *)

Record PowerBiReport : Type := mkReport {
  report_id : string;
  report_name : string;
  report_embedUrl : string;
  report_reportType : string;
  report_datasetId : string
}.

Record PowerBiDataset : Type := mkDataset {
  dataset_id : string;
  dataset_name : string;
  dataset_createReportEmbedURL : string
}.

(** The value of [AppContext.embeddingData].  [reports] and [datasets] are
    read with [?.] in the embed effect, so they may be absent. *)
Record EmbeddingData : Type := mkEmbeddingData {
  tenantName : option string;
  reports : option (list PowerBiReport);
  datasets : option (list PowerBiDataset);
  userCanEdit : bool;
  userCanCreate : bool;
  workspaceArtifactsLoading : bool
}.

Record AccountInfo : Type := mkAccount {
  account_username : string;
  account_name : string
}.

Record EmbedTokenResult : Type := mkTokenResult {
  result_embedToken : string;
  result_embedTokenExpiration : DateString
}.

(** An activity log entry.  [new ActivityLogEntry()] is declared outside
    this file: a field is [None] as long as this component has not assigned
    it, and holds the assigned value afterwards (itself optional where the
    component may assign [undefined] or [null]). *)
Record ActivityLogEntry : Type := mkEntry {
  CorrelationId : option string;
  Activity : option string;
  LoginId : option string;
  User : option string;
  Tenant : option (option string);
  Report : option string;
  ReportId : option string;
  ReportType : option string;
  PageName : option string;
  OriginalReportId : option string;
  DatasetId : option string;
  Dataset : option (option string);
  LoadDuration : option (option Z);
  RenderDuration : option (option Z)
}.

(* ===================================================================== *)
(** ** Power BI models                                                    *)
(* ===================================================================== *)

Inductive Permissions : Type :=
| Permissions_Read
| Permissions_ReadWrite
| Permissions_Copy
| Permissions_Create
| Permissions_All.

Inductive models_ViewMode : Type :=
| ViewMode_View
| ViewMode_Edit.

(** The component's own [ViewMode] type. *)
Inductive ViewMode : Type :=
| FitToPage
| FitToWidth
| ActualSize.

(** The values of the [embedType] and [reportType] state cells. *)
Inductive EmbedTypeTag : Type :=
| Tag_ExistingReport
| Tag_NewReport.

Inductive ReportTypeTag : Type :=
| Tag_PowerBiReport
| Tag_PaginatedReport.

(** An embedded object returned by [powerbi.embed] or
    [powerbi.createReport], known by its identity. *)
Definition Handle := nat.

(** [IReportEmbedConfiguration] as built by [embedExistingReport]. *)
Record ReportEmbedConfiguration : Type := mkReportConfig {
  cfg_id : string;
  cfg_embedUrl : string;
  cfg_accessToken : option string;
  cfg_viewMode : models_ViewMode;
  cfg_permissions : option Permissions;
  cfg_actionBar_visible : bool;
  cfg_pageNavigation_visible : bool;
  cfg_filters_visible : bool;
  cfg_filters_expanded : bool;
  cfg_bookmarks_visible : bool
}.

(** [IPaginatedReportLoadConfiguration] as built by [embedPaginatedReport]. *)
Record PaginatedReportConfiguration : Type := mkPaginatedConfig {
  pcfg_id : string;
  pcfg_embedUrl : string;
  pcfg_accessToken : option string;
  pcfg_parameterPanel_enabled : bool;
  pcfg_parameterPanel_expanded : bool
}.

(** [IEmbedConfiguration] as built by [embedNewReport]. *)
Record NewReportConfiguration : Type := mkNewReportConfig {
  ncfg_datasetId : string;
  ncfg_embedUrl : string;
  ncfg_accessToken : option string;
  ncfg_actionBar_visible : bool;
  ncfg_filters_expanded : bool;
  ncfg_filters_visible : bool
}.

(** [event.detail] of an event raised by an embedded object. *)
Record EventDetail : Type := mkDetail {
  saveAs : bool;
  reportObjectId : string;
  reportName : string
}.

(* ===================================================================== *)
(** ** Component state and the values a render closes over                *)
(* ===================================================================== *)

(** The [useState] cells of the component. *)
Record CompState : Type := mkState {
  embedToken : option string;
  embedTokenExpiration : option DateString;
  embedTokenAcquired : bool;
  embedTokenExpirationDisplay : string;
  embeddedReport : option Handle;
  embeddedNewReport : option Handle;
  embedType : option EmbedTypeTag;
  reportType : option ReportTypeTag;
  viewMode : ViewMode;
  editMode : bool;
  showNavigation : bool;
  showFiltersPane : bool;
  showBookmarksPane : bool;
  reportPath : string
}.

(** The initial values given to [useState]. *)
Definition initialState : CompState :=
  mkState None None false "" None None None None FitToPage false true true
    false "".

(** A call of one of the state setters. *)
Inductive Update : Type :=
| setEmbedToken (v : option string)
| setEmbedTokenExpiration (v : option DateString)
| setEmbedTokenAcquired (v : bool)
| setEmbedTokenExpirationDisplay (v : string)
| setEmbeddedReport (v : option Handle)
| setEmbeddedNewReport (v : option Handle)
| setEmbedType (v : option EmbedTypeTag)
| setReportType (v : option ReportTypeTag)
| setViewMode (v : ViewMode)
| setEditMode (v : bool)
| setShowNavigation (v : bool)
| setShowFiltersPane (v : bool)
| setShowBookmarksPane (v : bool)
| setReportPath (v : string).

(** The state after a setter call has been applied. *)
Definition applyUpdate (s : CompState) (u : Update) : CompState :=
  let '(mkState tok exp acq disp rep nrep et rt vm em nav fil bm path) := s in
  match u with
  | setEmbedToken v => mkState v exp acq disp rep nrep et rt vm em nav fil bm path
  | setEmbedTokenExpiration v => mkState tok v acq disp rep nrep et rt vm em nav fil bm path
  | setEmbedTokenAcquired v => mkState tok exp v disp rep nrep et rt vm em nav fil bm path
  | setEmbedTokenExpirationDisplay v => mkState tok exp acq v rep nrep et rt vm em nav fil bm path
  | setEmbeddedReport v => mkState tok exp acq disp v nrep et rt vm em nav fil bm path
  | setEmbeddedNewReport v => mkState tok exp acq disp rep v et rt vm em nav fil bm path
  | setEmbedType v => mkState tok exp acq disp rep nrep v rt vm em nav fil bm path
  | setReportType v => mkState tok exp acq disp rep nrep et v vm em nav fil bm path
  | setViewMode v => mkState tok exp acq disp rep nrep et rt v em nav fil bm path
  | setEditMode v => mkState tok exp acq disp rep nrep et rt vm v nav fil bm path
  | setShowNavigation v => mkState tok exp acq disp rep nrep et rt vm em v fil bm path
  | setShowFiltersPane v => mkState tok exp acq disp rep nrep et rt vm em nav v bm path
  | setShowBookmarksPane v => mkState tok exp acq disp rep nrep et rt vm em nav fil v path
  | setReportPath v => mkState tok exp acq disp rep nrep et rt vm em nav fil bm v
  end.

(** What a render reads from its hooks and from the browser, apart from
    its own state. *)
Record Env : Type := mkEnv {
  isAuthenticated : bool;                     (* useIsAuthenticated() *)
  account : option AccountInfo;               (* useAccount(...) *)
  id : option string;                         (* useParams().id *)
  embeddingData : option EmbeddingData;       (* useContext(AppContext) *)
  embedContainer_current : bool;              (* embedContainer.current is set *)
  location_search : list (string * string);   (* window.location.search *)
  innerHeight : Z                             (* window.innerHeight *)
}.

(** The values the functions of one render are closed over. *)
Record Snapshot : Type := mkSnapshot {
  env : Env;
  state : CompState
}.

(** The variables of one [embedExistingReport] call that its event
    handlers share. *)
Record Locals : Type := mkLocals {
  timerStart : Z;
  initialLoadComplete : bool;
  pageChangeInProgress : bool;
  loadDuration : option Z;
  renderDuration : option Z
}.

(** What the event handlers of one [embedExistingReport] call are closed
    over: the render, the report, and the embedded object whose handle also
    names the shared [Locals]. *)
Record Closure : Type := mkClosure {
  cl_snapshot : Snapshot;
  cl_Report : PowerBiReport;
  cl_embeddedReport : Handle
}.

(** The event handlers the component registers, as closures. *)
Inductive Handler : Type :=
| on_loaded (c : Closure)                       (* lines 132-134 *)
| on_rendered (c : Closure)                     (* lines 137-154 *)
| on_pageChanged (c : Closure)                  (* lines 157-165 *)
| on_saved (c : Closure)                        (* lines 168-184 *)
| on_error                                      (* lines 187-189 *)
| on_error_paginated                            (* lines 231-233 *)
| on_saved_new (s : Snapshot) (Dataset : PowerBiDataset)   (* lines 272-280 *)
| on_error_new.                                 (* lines 283-285 *)

(** What runs after an awaited [refreshEmbedToken()] has finished. *)
Inductive AfterRefresh : Type :=
| caller_none                                   (* the call was not awaited *)
| caller_on_saved (c : Closure) (detail : EventDetail)          (* line 172 *)
| caller_on_saved_new (s : Snapshot) (Dataset : PowerBiDataset)
    (detail : EventDetail).                                     (* line 273 *)

(** An [async] function suspended at an [await], named by the line of the
    [await]. *)
Inductive Task : Type :=
| await_378 (s : Snapshot)                       (* getEmbedToken *)
| await_387 (s : Snapshot) (k : AfterRefresh)    (* refreshEmbedToken *)
| await_141 (c : Closure)                        (* getCorrelationId *)
| await_142 (c : Closure) (correlationId : string)   (* getActivePage *)
| await_143 (c : Closure)                        (* logViewReportActivity *)
| await_150 (c : Closure)                        (* getCorrelationId *)
| await_151 (c : Closure) (correlationId : string)   (* getActivePage *)
| await_152 (c : Closure)                        (* logPageChangedActivity *)
| await_173 (c : Closure) (detail : EventDetail) (* refreshEmbeddingData *)
| await_228 (s : Snapshot) (embeddedReport : Handle). (* logViewReportActivity *)

(** Every call that leaves the component, in the order it is made. *)
Inductive Action : Type :=
| SetState (u : Update)
| powerbi_reset
| powerbi_embed (h : Handle) (config : ReportEmbedConfiguration)
| powerbi_embed_paginated (h : Handle) (config : PaginatedReportConfiguration)
| powerbi_createReport (h : Handle) (config : NewReportConfiguration)
| embed_off (h : Handle) (event : string)
| embed_on (h : Handle) (event : string) (handler : Handler)
| embed_setAccessToken (h : Handle) (token : string)
| embed_getCorrelationId (h : Handle)
| embed_getActivePage (h : Handle)
| WebApi_GetEmbedToken
| WebApi_LogActivity (logEntry : ActivityLogEntry)
| refreshEmbeddingData
| navigate (url : string)
| console_log (message : string)
| setTimeout (callback : Snapshot) (ms : Z)
| container_style_height (px : Z)
| addEventListener_resize
| unhandled (e : JsError).

(* ===================================================================== *)
(** ** The world the component runs in, and the monad of its code         *)
(* ===================================================================== *)

Record World : Type := mkWorld {
  trace : list Action;                 (* calls made so far, oldest first *)
  nextHandle : Handle;                 (* identity of the next embedded object *)
  locals : list (Handle * Locals);     (* shared variables of the handlers *)
  tasks : list Task;                   (* async functions waiting at an await *)
  timers : list Snapshot               (* pending one-second timeouts *)
}.

Definition initialWorld : World := mkWorld [] O [] [] [].

(** Code that runs to completion on the UI thread: it changes the world and
    returns or throws.  What was done before a throw stays done. *)
Definition M (A : Type) : Type := World -> Result A * World.

Definition ret {A : Type} (a : A) : M A :=
  fun w => (Ok a, w).

Definition bind {A B : Type} (m : M A) (f : A -> M B) : M B :=
  fun w =>
    match m w with
    | (Ok a, w') => f a w'
    | (Throw e, w') => (Throw e, w')
    end.

Definition throw {A : Type} (e : JsError) : M A :=
  fun w => (Throw e, w).

Declare Scope js_scope.
Delimit Scope js_scope with js.
Notation "x <- m ;; k" := (bind m (fun x => k))
  (at level 61, m at next level, right associativity) : js_scope.
Notation "m ;; k" := (bind m (fun _ => k))
  (at level 61, right associativity) : js_scope.
Local Open Scope js_scope.

Definition record (a : Action) (w : World) : World :=
  mkWorld (trace w ++ [a]) (nextHandle w) (locals w) (tasks w) (timers w).

(** Make a call that leaves the component. *)
Definition emit (a : Action) : M unit :=
  fun w => (Ok tt, record a w).

(** Call a state setter. *)
Definition set (u : Update) : M unit :=
  emit (SetState u).

(** Read a property of a value that may be [null] or [undefined]. *)
Definition deref {A : Type} (property : string) (o : option A) : M A :=
  match o with
  | Some a => ret a
  | None => throw (TypeError property)
  end.

(** An object is truthy, [null] and [undefined] are not. *)
Definition truthy_object {A : Type} (o : option A) : bool :=
  match o with
  | Some _ => true
  | None => false
  end.

(** Call an [async] function without awaiting it: an exception it raises
    rejects its promise and does not reach the caller. *)
Definition async_call (m : M unit) : M unit :=
  fun w =>
    match m w with
    | (Ok tt, w') => (Ok tt, w')
    | (Throw e, w') => (Ok tt, record (unhandled e) w')
    end.

(** Leave the running function suspended at an [await]. *)
Definition suspend (t : Task) : M unit :=
  fun w =>
    (Ok tt, mkWorld (trace w) (nextHandle w) (locals w) (tasks w ++ [t]) (timers w)).

(** The identity of the object a call of the Power BI client returns. *)
Definition new_embed : M Handle :=
  fun w =>
    (Ok (nextHandle w),
     mkWorld (trace w) (S (nextHandle w)) (locals w) (tasks w) (timers w)).

Fixpoint lookup_locals (h : Handle) (ls : list (Handle * Locals)) : option Locals :=
  match ls with
  | [] => None
  | (h', l) :: rest => if Nat.eqb h' h then Some l else lookup_locals h rest
  end.

Fixpoint store_locals (h : Handle) (l : Locals) (ls : list (Handle * Locals))
  : list (Handle * Locals) :=
  match ls with
  | [] => [(h, l)]
  | (h', l') :: rest =>
      if Nat.eqb h' h then (h, l) :: rest else (h', l') :: store_locals h l rest
  end.

(** The variables as declared at lines 118-122, before any handler ran. *)
Definition declared_locals (now : Z) : Locals :=
  mkLocals now false false None None.

(** Read the shared variables of the handlers of embedded object [h]. *)
Definition get_locals (h : Handle) : M Locals :=
  fun w =>
    (Ok match lookup_locals h (locals w) with
        | Some l => l
        | None => declared_locals 0
        end, w).

(** Assign the shared variables of the handlers of embedded object [h]. *)
Definition put_locals (h : Handle) (l : Locals) : M unit :=
  fun w =>
    (Ok tt,
     mkWorld (trace w) (nextHandle w) (store_locals h l (locals w)) (tasks w)
       (timers w)).

(** [window.setTimeout(() => monitorTokenExpiration(...), ms)] in the
    render [s]. *)
Definition window_setTimeout (s : Snapshot) (ms : Z) : M unit :=
  fun w =>
    (Ok tt,
     mkWorld (trace w ++ [setTimeout s ms]) (nextHandle w) (locals w) (tasks w)
       (timers w ++ [s])).

(** The component state once the setter calls of a trace are applied. *)
Fixpoint commit (s : CompState) (tr : list Action) : CompState :=
  match tr with
  | [] => s
  | SetState u :: rest => commit (applyUpdate s u) rest
  | _ :: rest => commit s rest
  end.

(** The handlers of [event] on embedded object [h] after the [off] and [on]
    calls of a trace, in registration order. *)
Fixpoint registered (h : Handle) (event : string) (tr : list Action)
  (acc : list Handler) : list Handler :=
  match tr with
  | [] => acc
  | embed_off h' e :: rest =>
      if Nat.eqb h' h && String.eqb e event
      then registered h event rest []
      else registered h event rest acc
  | embed_on h' e f :: rest =>
      if Nat.eqb h' h && String.eqb e event
      then registered h event rest (acc ++ [f])
      else registered h event rest acc
  | _ :: rest => registered h event rest acc
  end.

(* ===================================================================== *)
(** ** Activity logging (lines 298-375)                                   *)
(* ===================================================================== *)

(** [embeddingData.datasets.find((dataset) => dataset.id === datasetId)] *)
Definition find_dataset (datasetId : string) (ds : list PowerBiDataset)
  : option PowerBiDataset :=
  find (fun dataset => String.eqb (dataset_id dataset) datasetId) ds.

Definition logViewReportActivity (s : Snapshot) (correlationId : string)
  (report : PowerBiReport) (pageName : string)
  (loadDuration renderDuration : option Z) : M unit :=
  acct <- deref "username" (account (env s)) ;;
  data <- deref "tenantName" (embeddingData (env s)) ;;
  sets <- deref "find" (datasets data) ;;
  let found := find_dataset (report_datasetId report) sets in
  emit (WebApi_LogActivity {|
    CorrelationId := Some correlationId;
    Activity := Some "ViewReport";
    LoginId := Some (account_username acct);
    User := Some (account_name acct);
    Tenant := Some (tenantName data);
    Report := Some (report_name report);
    ReportId := Some (report_id report);
    ReportType := Some (report_reportType report);
    PageName := Some pageName;
    OriginalReportId := None;
    DatasetId := Some (report_datasetId report);
    Dataset := Some (option_map dataset_name found);
    LoadDuration := Some loadDuration;
    RenderDuration := Some renderDuration |}).

Definition logPageChangedActivity (s : Snapshot) (correlationId : string)
  (report : PowerBiReport) (pageName : string) (renderDuration : option Z)
  : M unit :=
  acct <- deref "username" (account (env s)) ;;
  data <- deref "tenantName" (embeddingData (env s)) ;;
  sets <- deref "find" (datasets data) ;;
  let found := find_dataset (report_datasetId report) sets in
  emit (WebApi_LogActivity {|
    CorrelationId := Some correlationId;
    Activity := Some "PageChanged";
    LoginId := Some (account_username acct);
    User := Some (account_name acct);
    Tenant := Some (tenantName data);
    Report := Some (report_name report);
    ReportId := Some (report_id report);
    ReportType := Some (report_reportType report);
    PageName := Some pageName;
    OriginalReportId := None;
    DatasetId := Some (report_datasetId report);
    Dataset := Some (option_map dataset_name found);
    LoadDuration := None;
    RenderDuration := Some renderDuration |}).

Definition logEditReportActivity (s : Snapshot) (report : PowerBiReport)
  : M unit :=
  acct <- deref "username" (account (env s)) ;;
  data <- deref "tenantName" (embeddingData (env s)) ;;
  sets <- deref "find" (datasets data) ;;
  found <- deref "name" (find_dataset (report_datasetId report) sets) ;;
  emit (WebApi_LogActivity {|
    CorrelationId := Some "";
    Activity := Some "EditReport";
    LoginId := Some (account_username acct);
    User := Some (account_name acct);
    Tenant := Some (tenantName data);
    Report := Some (report_name report);
    ReportId := Some (report_id report);
    ReportType := Some "PowerBIReport";
    PageName := None;
    OriginalReportId := None;
    DatasetId := Some (report_datasetId report);
    Dataset := Some (Some (dataset_name found));
    LoadDuration := None;
    RenderDuration := None |}).

Definition logCopyReportActivity (s : Snapshot) (orginalReport : PowerBiReport)
  (reportId reportName : string) : M unit :=
  acct <- deref "username" (account (env s)) ;;
  data <- deref "tenantName" (embeddingData (env s)) ;;
  sets <- deref "find" (datasets data) ;;
  found <- deref "name" (find_dataset (report_datasetId orginalReport) sets) ;;
  emit (WebApi_LogActivity {|
    CorrelationId := None;
    Activity := Some "CopyReport";
    LoginId := Some (account_username acct);
    User := Some (account_name acct);
    Tenant := Some (tenantName data);
    Report := Some reportName;
    ReportId := Some reportId;
    ReportType := Some "PowerBIReport";
    PageName := None;
    OriginalReportId := Some (report_id orginalReport);
    DatasetId := Some (report_datasetId orginalReport);
    Dataset := Some (Some (dataset_name found));
    LoadDuration := None;
    RenderDuration := None |}).

Definition logCreateReportActivity (s : Snapshot) (dataset : PowerBiDataset)
  (reportId reportName : string) : M unit :=
  acct <- deref "username" (account (env s)) ;;
  data <- deref "tenantName" (embeddingData (env s)) ;;
  emit (WebApi_LogActivity {|
    CorrelationId := None;
    Activity := Some "CreateReport";
    LoginId := Some (account_username acct);
    User := Some (account_name acct);
    Tenant := Some (tenantName data);
    Report := Some reportName;
    ReportId := Some reportId;
    ReportType := Some "PowerBIReport";
    PageName := None;
    OriginalReportId := None;
    DatasetId := Some (dataset_id dataset);
    Dataset := Some (Some (dataset_name dataset));
    LoadDuration := None;
    RenderDuration := None |}).

(* ===================================================================== *)
(** ** Embed token (lines 377-419)                                        *)
(* ===================================================================== *)

(** [getEmbedToken], up to its [await] at line 378. *)
Definition getEmbedToken (s : Snapshot) : M unit :=
  emit WebApi_GetEmbedToken ;;
  suspend (await_378 s).

(** [refreshEmbedToken], up to its [await] at line 387; [k] is the caller
    that awaits it, if any. *)
Definition refreshEmbedToken (s : Snapshot) (k : AfterRefresh) : M unit :=
  emit WebApi_GetEmbedToken ;;
  suspend (await_387 s k).

(** [Math.floor((new Date(EmbedTokenExpiration).getTime()
                 - new Date().getTime()) / 1000)] *)
Definition secondsUntil (EmbedTokenExpiration : option DateString) (now : Z)
  : JsNumber :=
  match getTime EmbedTokenExpiration with
  | Some t => Some ((t - now) / 1000)
  | None => None
  end.

(** [a < b] on numbers: false when [a] is [NaN]. *)
Definition js_lt (a : JsNumber) (b : Z) : bool :=
  match a with
  | Some x => x <? b
  | None => false
  end.

(** The string built at line 415. *)
Definition formatTimeToExpire (secondsToExpire : JsNumber) : string :=
  let minutes := option_map (fun x => x / 60) secondsToExpire in
  let seconds := option_map (fun x => Z.rem x 60) secondsToExpire in
  "Token Expiration: " ++ padStart (String_of minutes) 2 "0" ++ ":"
    ++ padStart (String_of seconds) 2 "0".

Definition monitorTokenExpiration (s : Snapshot)
  (EmbedTokenExpiration : option DateString) (now : Z) : M unit :=
  let secondsToExpire := secondsUntil EmbedTokenExpiration now in
  let secondsBeforeExpirationForAutoRefresh := 2 * 60 in
  if js_lt secondsToExpire secondsBeforeExpirationForAutoRefresh then
    async_call (refreshEmbedToken s caller_none)
  else
    let timeToExpire := formatTimeToExpire secondsToExpire in
    let timeToExpire :=
      if String.eqb timeToExpire (embedTokenExpirationDisplay (state s))
      then timeToExpire ++ " "
      else timeToExpire in
    set (setEmbedTokenExpirationDisplay timeToExpire).

(** [getEmbedToken] from line 379 on, once the backend has answered. *)
Definition getEmbedToken_resume (s : Snapshot) (tokenResult : EmbedTokenResult)
  (now : Z) : M unit :=
  set (setEmbedToken (Some (result_embedToken tokenResult))) ;;
  set (setEmbedTokenExpiration (Some (result_embedTokenExpiration tokenResult))) ;;
  set (setEmbedTokenAcquired true) ;;
  monitorTokenExpiration s (Some (result_embedTokenExpiration tokenResult)) now.

(** [refreshEmbedToken] from line 388 on, once the backend has answered. *)
Definition refreshEmbedToken_resume (s : Snapshot)
  (tokenResult : EmbedTokenResult) (now : Z) : M unit :=
  set (setEmbedToken (Some (result_embedToken tokenResult))) ;;
  set (setEmbedTokenExpiration (Some (result_embedTokenExpiration tokenResult))) ;;
  set (setEmbedTokenExpirationDisplay "refreshing embed token") ;;
  monitorTokenExpiration s (Some (result_embedTokenExpiration tokenResult)) now ;;
  match embeddedReport (state s) with
  | Some r => emit (embed_setAccessToken r (result_embedToken tokenResult))
  | None => ret tt
  end ;;
  match embeddedNewReport (state s) with
  | Some r => emit (embed_setAccessToken r (result_embedToken tokenResult))
  | None => ret tt
  end.

(* ===================================================================== *)
(** ** The three embedding modes (lines 57-287)                           *)
(* ===================================================================== *)

(** Lines 83-95 of [embedExistingReport]: the [permissions] variable, which
    stays [undefined] when no branch is taken. *)
Definition embedExistingReport_permissions (s : Snapshot)
  : M (option Permissions) :=
  data <- deref "userCanEdit" (embeddingData (env s)) ;;
  if userCanEdit data && userCanCreate data then
    ret (Some Permissions_All)
  else if truthy_object (embeddingData (env s)) && negb (userCanCreate data) then
    ret (Some Permissions_ReadWrite)
  else if negb (userCanEdit data) && userCanCreate data then
    ret (Some Permissions_Copy)
  else if negb (userCanEdit data) && negb (userCanCreate data) then
    ret (Some Permissions_Read)
  else
    ret None.

(** [params.get('edit') === "true"], lines 62-63. *)
Definition openInEditMode (s : Snapshot) : bool :=
  strict_eq_string (URLSearchParams_get (location_search (env s)) "edit") "true".

(** The [if (X?.name) setReportPath(...) else setReportPath("...")] block
    of the three modes; [suffix] is what follows [tenantName + " > "]. *)
Definition setReportPath_for (s : Snapshot) (artifact_name suffix : string)
  : M unit :=
  if truthy_string artifact_name then
    data <- deref "tenantName" (embeddingData (env s)) ;;
    set (setReportPath (concat_nullable (tenantName data) ++ " > " ++ suffix))
  else
    set (setReportPath "...").

Definition embedExistingReport (s : Snapshot) (now : Z) (Report : PowerBiReport)
  : M unit :=
  set (setEmbedType (Some Tag_ExistingReport)) ;;
  set (setReportType (Some Tag_PowerBiReport)) ;;
  let openInEditMode := openInEditMode s in
  set (setEditMode openInEditMode) ;;
  let defaultShowNavigation := true in
  set (setShowNavigation defaultShowNavigation) ;;
  let defaultShowFilterPane := false in
  set (setShowFiltersPane defaultShowFilterPane) ;;
  let defaultShowBookmarksPane := false in
  set (setShowBookmarksPane defaultShowBookmarksPane) ;;
  let defaultViewMode := FitToPage in
  set (setViewMode defaultViewMode) ;;
  setReportPath_for s (report_name Report) (report_name Report) ;;
  permissions <- embedExistingReport_permissions s ;;
  let config := {|
    cfg_id := report_id Report;
    cfg_embedUrl := report_embedUrl Report;
    cfg_accessToken := embedToken (state s);
    cfg_viewMode := if openInEditMode then ViewMode_Edit else ViewMode_View;
    cfg_permissions := permissions;
    cfg_actionBar_visible := false;
    cfg_pageNavigation_visible := defaultShowNavigation;
    cfg_filters_visible := defaultShowFilterPane;
    cfg_filters_expanded := false;
    cfg_bookmarks_visible := defaultShowBookmarksPane |} in
  emit powerbi_reset ;;
  embeddedReport <- new_embed ;;
  emit (powerbi_embed embeddedReport config) ;;
  put_locals embeddedReport (declared_locals now) ;;
  set (setEmbeddedReport (Some embeddedReport)) ;;
  set (setEmbeddedNewReport None) ;;
  let c := mkClosure s Report embeddedReport in
  emit (embed_off embeddedReport "loaded") ;;
  emit (embed_on embeddedReport "loaded" (on_loaded c)) ;;
  emit (embed_off embeddedReport "rendered") ;;
  emit (embed_on embeddedReport "rendered" (on_rendered c)) ;;
  emit (embed_off embeddedReport "pageChanged") ;;
  emit (embed_on embeddedReport "pageChanged" (on_pageChanged c)) ;;
  emit (embed_off embeddedReport "saved") ;;
  emit (embed_on embeddedReport "saved" (on_saved c)) ;;
  emit (embed_off embeddedReport "error") ;;
  emit (embed_on embeddedReport "error" on_error).

(** [embedPaginatedReport], up to its [await] at line 228. *)
Definition embedPaginatedReport (s : Snapshot) (Report : PowerBiReport)
  : M unit :=
  emit powerbi_reset ;;
  setReportPath_for s (report_name Report) (report_name Report) ;;
  set (setEmbedType (Some Tag_ExistingReport)) ;;
  set (setReportType (Some Tag_PaginatedReport)) ;;
  let config := {|
    pcfg_id := report_id Report;
    pcfg_embedUrl := report_embedUrl Report;
    pcfg_accessToken := embedToken (state s);
    pcfg_parameterPanel_enabled := true;
    pcfg_parameterPanel_expanded := true |} in
  embeddedReport <- new_embed ;;
  emit (powerbi_embed_paginated embeddedReport config) ;;
  set (setEmbeddedReport (Some embeddedReport)) ;;
  set (setEmbeddedNewReport None) ;;
  logViewReportActivity s "" Report "" None None ;;
  suspend (await_228 s embeddedReport).

(** [embedPaginatedReport] from line 230 on. *)
Definition embedPaginatedReport_resume (embeddedReport : Handle) : M unit :=
  emit (embed_off embeddedReport "error") ;;
  emit (embed_on embeddedReport "error" on_error_paginated).

(** [embedNewReport].  Lines 271 and 282 call [off] on the [embeddedReport]
    state cell of the render, not on the object just created. *)
Definition embedNewReport (s : Snapshot) (Dataset : PowerBiDataset) : M unit :=
  set (setEmbedType (Some Tag_NewReport)) ;;
  set (setReportType (Some Tag_PowerBiReport)) ;;
  setReportPath_for s (dataset_name Dataset) "New Report [not saved]" ;;
  let config := {|
    ncfg_datasetId := dataset_id Dataset;
    ncfg_embedUrl := dataset_createReportEmbedURL Dataset;
    ncfg_accessToken := embedToken (state s);
    ncfg_actionBar_visible := false;
    ncfg_filters_expanded := false;
    ncfg_filters_visible := true |} in
  embeddedNewReport <- new_embed ;;
  emit (powerbi_createReport embeddedNewReport config) ;;
  set (setEmbeddedNewReport (Some embeddedNewReport)) ;;
  set (setEmbeddedReport None) ;;
  previous <- deref "off" (embeddedReport (state s)) ;;
  emit (embed_off previous "saved") ;;
  emit (embed_on embeddedNewReport "saved" (on_saved_new s Dataset)) ;;
  previous <- deref "off" (embeddedReport (state s)) ;;
  emit (embed_off previous "error") ;;
  emit (embed_on embeddedNewReport "error" on_error_new).

(* ===================================================================== *)
(** ** Event handlers of an embedded report (lines 131-189, 272-285)      *)
(* ===================================================================== *)

(** Lines 146-153 of the [rendered] handler, up to the [await] at 150. *)
Definition on_rendered_pageChange (c : Closure) (now : Z) : M unit :=
  let h := cl_embeddedReport c in
  l <- get_locals h ;;
  if pageChangeInProgress l then
    put_locals h (mkLocals (timerStart l) (initialLoadComplete l) false
                    (loadDuration l) (Some (now - timerStart l))) ;;
    emit (embed_getCorrelationId h) ;;
    suspend (await_150 c)
  else
    ret tt.

(** The [rendered] handler, up to its first [await]. *)
Definition run_on_rendered (c : Closure) (now : Z) : M unit :=
  let h := cl_embeddedReport c in
  l <- get_locals h ;;
  if negb (initialLoadComplete l) then
    put_locals h (mkLocals (timerStart l) (initialLoadComplete l)
                    (pageChangeInProgress l) (loadDuration l)
                    (Some (now - timerStart l))) ;;
    emit (embed_getCorrelationId h) ;;
    suspend (await_141 c)
  else
    on_rendered_pageChange c now.

(** Line 143: the call of [logViewReportActivity] and the wait for it. *)
Definition on_rendered_logView (c : Closure) (correlationId pageName : string)
  : M unit :=
  l <- get_locals (cl_embeddedReport c) ;;
  logViewReportActivity (cl_snapshot c) correlationId (cl_Report c) pageName
    (loadDuration l) (renderDuration l) ;;
  suspend (await_143 c).

(** Line 142, once [getCorrelationId] has answered. *)
Definition on_rendered_resume_141 (c : Closure) (correlationId : string)
  : M unit :=
  if String.eqb (report_reportType (cl_Report c)) "PowerBIReport" then
    emit (embed_getActivePage (cl_embeddedReport c)) ;;
    suspend (await_142 c correlationId)
  else
    on_rendered_logView c correlationId "".

(** Lines 144-153, once the ViewReport entry has been accepted. *)
Definition on_rendered_resume_143 (c : Closure) (now : Z) : M unit :=
  let h := cl_embeddedReport c in
  l <- get_locals h ;;
  put_locals h (mkLocals (timerStart l) true (pageChangeInProgress l)
                  (loadDuration l) (renderDuration l)) ;;
  on_rendered_pageChange c now.

(** Line 151, once [getCorrelationId] has answered. *)
Definition on_rendered_resume_150 (c : Closure) (correlationId : string)
  : M unit :=
  emit (embed_getActivePage (cl_embeddedReport c)) ;;
  suspend (await_151 c correlationId).

(** Line 152, once [getActivePage] has answered. *)
Definition on_rendered_resume_151 (c : Closure) (correlationId pageName : string)
  : M unit :=
  l <- get_locals (cl_embeddedReport c) ;;
  logPageChangedActivity (cl_snapshot c) correlationId (cl_Report c) pageName
    (renderDuration l) ;;
  suspend (await_152 c).

Definition run_on_loaded (c : Closure) (now : Z) : M unit :=
  let h := cl_embeddedReport c in
  l <- get_locals h ;;
  put_locals h (mkLocals (timerStart l) (initialLoadComplete l)
                  (pageChangeInProgress l) (Some (now - timerStart l))
                  (renderDuration l)).

Definition run_on_pageChanged (c : Closure) (now : Z) : M unit :=
  let h := cl_embeddedReport c in
  l <- get_locals h ;;
  if initialLoadComplete l then
    put_locals h (mkLocals now (initialLoadComplete l) true (loadDuration l)
                    (renderDuration l))
  else
    ret tt.

(** The [saved] handler of an existing report, up to its first [await]. *)
Definition run_on_saved (c : Closure) (detail : EventDetail) : M unit :=
  if saveAs detail then
    refreshEmbedToken (cl_snapshot c) (caller_on_saved c detail)
  else
    async_call (logEditReportActivity (cl_snapshot c) (cl_Report c)).

(** Lines 174-177, once [refreshEmbeddingData] has finished. *)
Definition on_saved_resume_173 (c : Closure) (detail : EventDetail) : M unit :=
  let newReportId := reportObjectId detail in
  let newReportName := reportName detail in
  async_call (logCopyReportActivity (cl_snapshot c) (cl_Report c) newReportId
                newReportName) ;;
  emit (navigate ("/reports/" ++ newReportId ++ "/?edit=true")).

(** The [saved] handler of a new report, up to its [await] at line 273. *)
Definition run_on_saved_new (s : Snapshot) (Dataset : PowerBiDataset)
  (detail : EventDetail) : M unit :=
  refreshEmbedToken s (caller_on_saved_new s Dataset detail).

(** The caller of an awaited [refreshEmbedToken()], from the statement
    after the [await]. *)
Definition after_refresh (k : AfterRefresh) : M unit :=
  match k with
  | caller_none => ret tt
  | caller_on_saved c detail =>
      emit refreshEmbeddingData ;;
      suspend (await_173 c detail)
  | caller_on_saved_new s Dataset detail =>
      emit refreshEmbeddingData ;;
      let newReportId := reportObjectId detail in
      let newReportName := reportName detail in
      async_call (logCreateReportActivity s Dataset newReportId newReportName) ;;
      emit (navigate ("/reports/" ++ newReportId ++ "/?edit=true&newReport=true"))
  end.

(** Run an event handler until it returns or reaches its first [await].
    All handlers but the [error] ones are [async]. *)
Definition run_handler (f : Handler) (detail : EventDetail) (now : Z) : M unit :=
  match f with
  | on_loaded c => async_call (run_on_loaded c now)
  | on_rendered c => async_call (run_on_rendered c now)
  | on_pageChanged c => async_call (run_on_pageChanged c now)
  | on_saved c => async_call (run_on_saved c detail)
  | on_error => emit (console_log "ERROR in embedded report")
  | on_error_paginated => emit (console_log "ERROR in paginated report")
  | on_saved_new s Dataset => async_call (run_on_saved_new s Dataset detail)
  | on_error_new => emit (console_log "ERROR in embedded report")
  end.

Fixpoint run_handlers (fs : list Handler) (detail : EventDetail) (now : Z)
  : M unit :=
  match fs with
  | [] => ret tt
  | f :: rest => run_handler f detail now ;; run_handlers rest detail now
  end.

(** The embedded object [h] raises [event]: its registered handlers run. *)
Definition dispatch (h : Handle) (event : string) (detail : EventDetail)
  (now : Z) : M unit :=
  fun w => run_handlers (registered h event (trace w) []) detail now w.

(* ===================================================================== *)
(** ** Effects and render output (lines 289-296, 421-500)                 *)
(* ===================================================================== *)

Definition setReportContainerHeight (s : Snapshot) : M unit :=
  if embedContainer_current (env s) then
    let reportContainerTopPosition :=
      match reportType (state s) with
      | Some Tag_PaginatedReport => 76
      | _ => 109
      end in
    emit (container_style_height
            (innerHeight (env s) - reportContainerTopPosition - 10))
  else
    ret tt.

(** The body of the [useLayoutEffect] at lines 422-427. *)
Definition layoutEffect (s : Snapshot) : M unit :=
  if isAuthenticated (env s) && embedContainer_current (env s) then
    setReportContainerHeight s ;;
    emit addEventListener_resize
  else
    ret tt.

(** [embeddingData.reports?.find((report) => report.id === id)] *)
Definition find_report (s : Snapshot) (data : EmbeddingData)
  : option PowerBiReport :=
  match reports data with
  | Some rs =>
      find (fun report => strict_eq_nullable (Some (report_id report)) (id (env s))) rs
  | None => None
  end.

(** [embeddingData.datasets?.find((dataset) => dataset.id === id)] *)
Definition find_dataset_by_id (s : Snapshot) (data : EmbeddingData)
  : option PowerBiDataset :=
  match datasets data with
  | Some ds =>
      find (fun dataset => strict_eq_nullable (Some (dataset_id dataset)) (id (env s))) ds
  | None => None
  end.

(** The condition of line 432, evaluated left to right. *)
Definition embedEffect_guard (s : Snapshot) : M bool :=
  if isAuthenticated (env s) && embedContainer_current (env s) then
    data <- deref "tenantName" (embeddingData (env s)) ;;
    ret (truthy_object (tenantName data))
  else
    ret false.

(** The body of the [useEffect] at lines 430-459. *)
Definition embedEffect (s : Snapshot) (now : Z) : M unit :=
  go <- embedEffect_guard s ;;
  if go then
    if negb (embedTokenAcquired (state s)) then
      async_call (getEmbedToken s)
    else
      data <- deref "reports" (embeddingData (env s)) ;;
      match find_report s data with
      | Some report =>
          if String.eqb (report_reportType report) "PowerBIReport" then
            async_call (embedExistingReport s now report)
          else
            async_call (embedPaginatedReport s report)
      | None =>
          match find_dataset_by_id s data with
          | Some dataset => async_call (embedNewReport s dataset)
          | None => ret tt
          end
      end
  else
    ret tt.

(** The body of the [useEffect] at lines 462-468. *)
Definition timerEffect (s : Snapshot) : M unit :=
  if isAuthenticated (env s) && embedTokenAcquired (state s) then
    window_setTimeout s 1000
  else
    ret tt.


(** What the component returns from a render. *)
Inductive Element : Type :=
| PageNotAccessible
| DataLoading
| ReportPage (reportPath tokenExpiration : string)
    (ReportToolbar : option (option Handle))
    (NewReportToolbar : option (option Handle)).

Definition is_tag_ExistingReport (t : option EmbedTypeTag) : bool :=
  match t with Some Tag_ExistingReport => true | _ => false end.

Definition is_tag_NewReport (t : option EmbedTypeTag) : bool :=
  match t with Some Tag_NewReport => true | _ => false end.

Definition is_tag_PowerBiReport (t : option ReportTypeTag) : bool :=
  match t with Some Tag_PowerBiReport => true | _ => false end.

(** Lines 470-499. *)
Definition render (s : Snapshot) : Result Element :=
  if negb (isAuthenticated (env s)) then
    Ok PageNotAccessible
  else
    match embeddingData (env s) with
    | None => Throw (TypeError "workspaceArtifactsLoading")
    | Some data =>
        if workspaceArtifactsLoading data then
          Ok DataLoading
        else
          Ok (ReportPage (reportPath (state s))
                (embedTokenExpirationDisplay (state s))
                (if is_tag_ExistingReport (embedType (state s))
                    && is_tag_PowerBiReport (reportType (state s))
                 then Some (embeddedReport (state s)) else None)
                (if is_tag_NewReport (embedType (state s))
                 then Some (embeddedNewReport (state s)) else None))
    end.

(* ===================================================================== *)
(** ** The event loop                                                     *)
(* ===================================================================== *)

(** How an awaited promise settles. *)
Inductive Settled : Type :=
| resolved_token (tokenResult : EmbedTokenResult)   (* GetEmbedToken *)
| resolved_id (correlationId : string)              (* getCorrelationId *)
| resolved_page (displayName : string)              (* getActivePage *)
| resolved_void                                     (* LogActivity and the like *)
| rejected.

(** The rest of a suspended function once its promise has settled with a
    value of the kind it waits for. *)
Definition resume (t : Task) (r : Settled) (now : Z) : option (M unit) :=
  match t, r with
  | _, rejected => Some (throw Rejection)
  | await_378 s, resolved_token tokenResult =>
      Some (getEmbedToken_resume s tokenResult now)
  | await_387 s k, resolved_token tokenResult =>
      Some (refreshEmbedToken_resume s tokenResult now ;; after_refresh k)
  | await_141 c, resolved_id v => Some (on_rendered_resume_141 c v)
  | await_142 c v, resolved_page p => Some (on_rendered_logView c v p)
  | await_143 c, resolved_void => Some (on_rendered_resume_143 c now)
  | await_150 c, resolved_id v => Some (on_rendered_resume_150 c v)
  | await_151 c v, resolved_page p => Some (on_rendered_resume_151 c v p)
  | await_152 c, resolved_void => Some (ret tt)
  | await_173 c detail, resolved_void => Some (on_saved_resume_173 c detail)
  | await_228 s h, resolved_void => Some (embedPaginatedReport_resume h)
  | _, _ => None
  end.

Fixpoint remove_nth {A : Type} (n : nat) (l : list A) : list A :=
  match n, l with
  | _, [] => []
  | O, _ :: rest => rest
  | S k, x :: rest => x :: remove_nth k rest
  end.

Definition drop_task (n : nat) (w : World) : World :=
  mkWorld (trace w) (nextHandle w) (locals w) (remove_nth n (tasks w)) (timers w).

Definition drop_timer (n : nat) (w : World) : World :=
  mkWorld (trace w) (nextHandle w) (locals w) (tasks w) (remove_nth n (timers w)).

(** What the UI thread is asked to run next.  React decides when the
    effects of a render run; the browser, the Power BI client and the
    backend decide the rest. *)
Inductive Event : Type :=
| run_layoutEffect (s : Snapshot)
| run_embedEffect (s : Snapshot) (now : Z)
| run_timerEffect (s : Snapshot)
| timeout (n : nat) (now : Z)                   (* the n-th pending timer fires *)
| raised (h : Handle) (event : string) (detail : EventDetail) (now : Z)
| settled (n : nat) (r : Settled) (now : Z).    (* the n-th task is resumed *)

(** Run to completion and drop the outcome: nothing awaits it. *)
Definition top_level (m : M unit) (w : World) : World :=
  snd (async_call m w).

(** One turn of the event loop; [None] when the event cannot happen in
    this world. *)
Definition step (w : World) (ev : Event) : option World :=
  match ev with
  | run_layoutEffect s => Some (top_level (layoutEffect s) w)
  | run_embedEffect s now => Some (top_level (embedEffect s now) w)
  | run_timerEffect s => Some (top_level (timerEffect s) w)
  | timeout n now =>
      match nth_error (timers w) n with
      | Some s =>
          Some (top_level
                  (monitorTokenExpiration s (embedTokenExpiration (state s)) now)
                  (drop_timer n w))
      | None => None
      end
  | raised h event detail now => Some (top_level (dispatch h event detail now) w)
  | settled n r now =>
      match nth_error (tasks w) n with
      | Some t =>
          match resume t r now with
          | Some m => Some (top_level m (drop_task n w))
          | None => None
          end
      | None => None
      end
  end.

Fixpoint run (w : World) (evs : list Event) : option World :=
  match evs with
  | [] => Some w
  | ev :: rest =>
      match step w ev with
      | Some w' => run w' rest
      | None => None
      end
  end.

(** The activity log entries sent to the backend, oldest first. *)
Fixpoint logged (tr : list Action) : list ActivityLogEntry :=
  match tr with
  | [] => []
  | WebApi_LogActivity e :: rest => e :: logged rest
  | _ :: rest => logged rest
  end.

(** The [powerbi.embed] calls of a trace for a Power BI report: the object
    returned and the configuration passed. *)
Fixpoint embed_calls (tr : list Action)
  : list (Handle * ReportEmbedConfiguration) :=
  match tr with
  | [] => []
  | powerbi_embed h config :: rest => (h, config) :: embed_calls rest
  | _ :: rest => embed_calls rest
  end.

(** The [on] calls of a trace. *)
Fixpoint on_calls (tr : list Action) : list (Handle * string * Handler) :=
  match tr with
  | [] => []
  | embed_on h event f :: rest => (h, event, f) :: on_calls rest
  | _ :: rest => on_calls rest
  end.

(** The [off] calls of a trace. *)
Fixpoint off_calls (tr : list Action) : list (Handle * string) :=
  match tr with
  | [] => []
  | embed_off h event :: rest => (h, event) :: off_calls rest
  | _ :: rest => off_calls rest
  end.

(** What [embedNewReport] does before line 271, whatever was embedded
    before. *)
Definition embedNewReport_prefix (s : Snapshot) (Dataset : PowerBiDataset)
  (data : EmbeddingData) (h : Handle) : list Action :=
  [SetState (setEmbedType (Some Tag_NewReport));
   SetState (setReportType (Some Tag_PowerBiReport));
   SetState (setReportPath
               (if truthy_string (dataset_name Dataset)
                then concat_nullable (tenantName data) ++ " > "
                       ++ "New Report [not saved]"
                else "..."));
   powerbi_createReport h
     (mkNewReportConfig (dataset_id Dataset)
        (dataset_createReportEmbedURL Dataset) (embedToken (state s))
        false false true);
   SetState (setEmbeddedNewReport (Some h));
   SetState (setEmbeddedReport None)].




(** Lines 393-399: [setAccessToken] on whichever embedded objects the
    render holds. *)
Definition setAccessToken_calls (s : Snapshot) (token : string) : list Action :=
  (match embeddedReport (state s) with
   | Some r => [embed_setAccessToken r token]
   | None => []
   end ++
   match embeddedNewReport (state s) with
   | Some r => [embed_setAccessToken r token]
   | None => []
   end)%list.

(** The log entries a piece of code sends when run in world [w]. *)
Definition entries_sent (m : M unit) (w : World) : list ActivityLogEntry :=
  skipn (length (logged (trace w))) (logged (trace (snd (m w)))).

(** The activity and the correlation id of a log entry. *)
Definition activity_and_correlation (e : ActivityLogEntry)
  : option string * option string :=
  (Activity e, CorrelationId e).





(** ** Sample data *)

Definition sample_dataset : PowerBiDataset :=
  mkDataset "d1" "Sales" "https://app.powerbi.com/reportEmbed?create".

Definition sample_report : PowerBiReport :=
  mkReport "r1" "Sales Report" "https://app.powerbi.com/reportEmbed" "PowerBIReport"
    "d1".

Definition sample_paginated : PowerBiReport :=
  mkReport "r2" "Invoices" "https://app.powerbi.com/rdlEmbed" "PaginatedReport"
    "d1".

Definition sample_data : EmbeddingData :=
  mkEmbeddingData (Some "Contoso") (Some [sample_report; sample_paginated])
    (Some [sample_dataset]) false false false.

Definition sample_account : AccountInfo :=
  mkAccount "megan@contoso.com" "Megan".

Definition sample_env : Env :=
  mkEnv true (Some sample_account) (Some "r1") (Some sample_data) true
    [("edit", "true")] 800.

(** A render with a token that expires at one hour after the epoch, and
    nothing embedded yet. *)
Definition sample_state : CompState :=
  mkState (Some "token-1") (Some (DateAt 3600000)) true
    "Token Expiration: 59:59" None None None None FitToPage false true true
    false "".

Definition sample_snapshot : Snapshot := mkSnapshot sample_env sample_state.

Definition no_detail : EventDetail := mkDetail false "" "".

(** A report is embedded; it is rendered a first time at 2000 and a second
    time at 2500, while the handler of the first event still waits for the
    Power BI client and the backend; then the awaited calls of both
    handlers are answered in turn. *)
Definition overlapping_rendered_events : list Event :=
  [run_embedEffect sample_snapshot 1000;
   raised O "loaded" no_detail 1800;
   raised O "rendered" no_detail 2000;
   raised O "rendered" no_detail 2500;
   settled O (resolved_id "session-1") 2600;
   settled O (resolved_id "session-1") 2600;
   settled O (resolved_page "Overview") 2700;
   settled O (resolved_page "Overview") 2700;
   settled O resolved_void 2900;
   settled O resolved_void 2900].

(** A report is embedded and rendered, its ViewReport entry is logged with
    the identifier the Power BI client gave, and then the user saves it. *)
Definition view_then_save_events : list Event :=
  [run_embedEffect sample_snapshot 1000;
   raised O "rendered" no_detail 2000;
   settled O (resolved_id "session-1") 2100;
   settled O (resolved_page "Overview") 2200;
   settled O resolved_void 2300;
   raised O "saved" no_detail 5000].

(** A render of a signed-out user. *)
Definition signed_out_snapshot : Snapshot :=
  mkSnapshot (mkEnv false None (Some "r1") (Some sample_data) false [] 800)
    initialState.

(** A render while the workspace artifacts are loading. *)
Definition loading_snapshot : Snapshot :=
  mkSnapshot
    (mkEnv true (Some sample_account) (Some "r1")
       (Some (mkEmbeddingData None None None false false true)) false [] 800)
    initialState.

(** A render that holds an embedded report. *)
Definition embedded_snapshot : Snapshot :=
  mkSnapshot sample_env
    (mkState (Some "token-1") (Some (DateAt 3600000)) true "" (Some 7%nat) None
       (Some Tag_ExistingReport) (Some Tag_PowerBiReport) FitToPage false true
       false false "Contoso > Sales Report").

(** ** Events of one embedded report, handled one at a time *)

(** An event of an embedded report together with what the Power BI client
    answers to the calls its handler awaits. *)
Inductive ReportEvent : Type :=
| report_loaded (now : Z)
| report_rendered (now : Z) (correlationId pageName : string)
| report_pageChanged (now : Z).

(** The value a suspended function waits for. *)
Definition answer (t : Task) (correlationId pageName : string) : Settled :=
  match t with
  | await_141 _ | await_150 _ => resolved_id correlationId
  | await_142 _ _ | await_151 _ _ => resolved_page pageName
  | _ => resolved_void
  end.

(** Resume the suspended function until none is left; a [rendered] handler
    awaits at most three times. *)
Fixpoint drain (fuel : nat) (correlationId pageName : string) (now : Z)
  (w : World) : option World :=
  match fuel with
  | O => Some w
  | S k =>
      match tasks w with
      | [] => Some w
      | t :: _ =>
          match step w (settled O (answer t correlationId pageName) now) with
          | Some w' => drain k correlationId pageName now w'
          | None => None
          end
      end
  end.

(** Raise the event on embedded object [h] and let its handler finish
    before anything else happens. *)
Definition deliver (h : Handle) (w : World) (e : ReportEvent) : option World :=
  match e with
  | report_loaded now => step w (raised h "loaded" no_detail now)
  | report_pageChanged now => step w (raised h "pageChanged" no_detail now)
  | report_rendered now correlationId pageName =>
      match step w (raised h "rendered" no_detail now) with
      | Some w' => drain 3 correlationId pageName now w'
      | None => None
      end
  end.

Fixpoint deliver_all (h : Handle) (w : World) (es : list ReportEvent)
  : option World :=
  match es with
  | [] => Some w
  | e :: rest =>
      match deliver h w e with
      | Some w' => deliver_all h w' rest
      | None => None
      end
  end.

(** The activities the specification expects for a sequence of events of
    one embedded report, in its own words: ViewReport exactly once, on the
    first [rendered] event; PageChanged only for a [rendered] event that
    was preceded by a [pageChanged] event which itself occurred after the
    initial load completed. *)
Fixpoint claimed_activities (viewed changed : bool) (es : list ReportEvent)
  : list string :=
  match es with
  | [] => []
  | report_loaded _ :: rest => claimed_activities viewed changed rest
  | report_pageChanged _ :: rest =>
      claimed_activities viewed (if viewed then true else changed) rest
  | report_rendered _ _ _ :: rest =>
      ((if viewed then [] else ["ViewReport"])
       ++ (if changed then ["PageChanged"] else [])
       ++ claimed_activities true false rest)%list
  end.

(** The handlers of closure [c] are wired, none of them is suspended, and
    their shared variables read [viewed] and [changed]. *)
Definition settled_session (c : Closure) (viewed changed : bool) (w : World)
  : Prop :=
  registered (cl_embeddedReport c) "loaded" (trace w) [] = [on_loaded c]
  /\ registered (cl_embeddedReport c) "rendered" (trace w) [] = [on_rendered c]
  /\ registered (cl_embeddedReport c) "pageChanged" (trace w) []
     = [on_pageChanged c]
  /\ tasks w = []
  /\ exists l, lookup_locals (cl_embeddedReport c) (locals w) = Some l
               /\ initialLoadComplete l = viewed
               /\ pageChangeInProgress l = changed.

(** The same two [rendered] events as in [overlapping_rendered_events],
    the second one arriving after the handler of the first has finished. *)
Definition sequential_rendered_events : list Event :=
  [run_embedEffect sample_snapshot 1000;
   raised O "loaded" no_detail 1800;
   raised O "rendered" no_detail 2000;
   settled O (resolved_id "session-1") 2100;
   settled O (resolved_page "Overview") 2200;
   settled O resolved_void 2400;
   raised O "rendered" no_detail 2500].

Definition is_report_rendered (e : ReportEvent) : bool :=
  match e with
  | report_rendered _ _ _ => true
  | _ => false
  end.

(** ** Observations on a trace *)

(** The number of [GetEmbedToken] requests of a trace. *)
Fixpoint token_requests (tr : list Action) : nat :=
  match tr with
  | [] => O
  | WebApi_GetEmbedToken :: rest => S (token_requests rest)
  | _ :: rest => token_requests rest
  end.

(** The embedded objects [setAccessToken] was called on. *)
Fixpoint setAccessToken_targets (tr : list Action) : list Handle :=
  match tr with
  | [] => []
  | embed_setAccessToken h _ :: rest => h :: setAccessToken_targets rest
  | _ :: rest => setAccessToken_targets rest
  end.

(** The number of [resize] listeners added to the window. *)
Fixpoint resize_listeners (tr : list Action) : nat :=
  match tr with
  | [] => O
  | addEventListener_resize :: rest => S (resize_listeners rest)
  | _ :: rest => resize_listeners rest
  end.


(** The render that follows: same hooks, the state with the setter calls
    of the trace applied. *)
Definition next_render (e : Env) (st : CompState) (tr : list Action) : Snapshot :=
  mkSnapshot e (commit st tr).

(** The heights given to the embed container, in pixels. *)
Fixpoint container_heights (tr : list Action) : list Z :=
  match tr with
  | [] => []
  | container_style_height px :: rest => px :: container_heights rest
  | _ :: rest => container_heights rest
  end.

Definition is_paginated (s : Snapshot) : bool :=
  match reportType (state s) with
  | Some Tag_PaginatedReport => true
  | _ => false
  end.

(** The embedded objects a state holds. *)
Definition embedded_objects (st : CompState) : list Handle :=
  (match embeddedReport st with Some h => [h] | None => [] end
   ++ match embeddedNewReport st with Some h => [h] | None => [] end)%list.


(** How often activity [a] occurs among the [Activity] fields of logged
    entries. *)
Definition activity_count (a : string) (l : list (option string)) : nat :=
  length (filter (fun o => match o with
                           | Some b => String.eqb a b
                           | None => false
                           end) l).

Definition is_report_pageChanged (e : ReportEvent) : bool :=
  match e with
  | report_pageChanged _ => true
  | _ => false
  end.

(** ** More sample data *)

(** The first render after sign-in: no token yet. *)
Definition first_snapshot : Snapshot := mkSnapshot sample_env initialState.

(** A render whose route names the paginated report. *)
Definition paginated_snapshot : Snapshot :=
  mkSnapshot
    (mkEnv true (Some sample_account) (Some "r2") (Some sample_data) true []
       800)
    sample_state.

(** The render after the paginated report was embedded. *)
Definition paginated_embedded_snapshot : Snapshot :=
  mkSnapshot (env paginated_snapshot)
    (mkState (Some "token-1") (Some (DateAt 3600000)) true "" None None
       (Some Tag_ExistingReport) (Some Tag_PaginatedReport) FitToPage false
       true true false "Contoso > Invoices").




(** A report whose dataset is not among the datasets of the tenant. *)
Definition orphan_report : PowerBiReport :=
  mkReport "r3" "Budget" "https://app.powerbi.com/reportEmbed" "PowerBIReport"
    "d9".

(** A token that expires two hours after the epoch. *)
Definition sample_token : EmbedTokenResult :=
  mkTokenResult "token-2" (DateAt 7200000).

(** The detail of a [saved] event after Save As, and after Save. *)
Definition save_as_detail : EventDetail :=
  mkDetail true "r9" "Sales Report (copy)".

Definition save_detail : EventDetail := mkDetail false "r9" "Sales by region".

(** The world after the sample report was embedded. *)
Definition report_embedded_world : World :=
  snd (embedExistingReport sample_snapshot 1000 sample_report initialWorld).

(** The world after a new report on the sample dataset was embedded. *)
Definition new_report_embedded_world : World :=
  snd (embedNewReport embedded_snapshot sample_dataset initialWorld).

(** A refresh of the embed token is under way. *)
Definition refreshing_world : World :=
  mkWorld [WebApi_GetEmbedToken] O []
    [await_387 embedded_snapshot caller_none] [].

(* ===================================================================== *)
(** * Properties                                                          *)
(* ===================================================================== *)

(** ** Symbolic execution of the monad *)

Ltac fold_world :=
  repeat match goal with
         | w : World |- _ =>
             progress fold (trace w) (nextHandle w) (locals w) (tasks w)
               (timers w)
         end.

Ltac run_js :=
  cbv beta iota zeta delta
    [bind ret throw emit set record deref async_call suspend new_embed
     get_locals put_locals window_setTimeout truthy_object andb negb
     trace nextHandle locals tasks timers fst snd];
  fold_world.

Ltac flatten_trace := repeat rewrite <- app_assoc; cbn [app].

Lemma commit_app (st : CompState) (tr1 tr2 : list Action) :
  commit st (tr1 ++ tr2) = commit (commit st tr1) tr2.
Proof.
  revert st. induction tr1 as [|a tr1 IH]; intros st; cbn [app commit].
  - reflexivity.
  - destruct a; apply IH.
Qed.

Lemma registered_app (h : Handle) (event : string) (tr1 tr2 : list Action)
  (acc : list Handler) :
  registered h event (tr1 ++ tr2) acc
  = registered h event tr2 (registered h event tr1 acc).
Proof.
  revert acc. induction tr1 as [|a tr1 IH]; intros acc; cbn [app registered].
  - reflexivity.
  - destruct a; try apply IH.
    + destruct (Nat.eqb h0 h && String.eqb event0 event); apply IH.
    + destruct (Nat.eqb h0 h && String.eqb event0 event); apply IH.
Qed.

Lemma logged_app (tr1 tr2 : list Action) :
  logged (tr1 ++ tr2) = (logged tr1 ++ logged tr2)%list.
Proof.
  induction tr1 as [|a tr1 IH]; cbn [app logged].
  - reflexivity.
  - destruct a; cbn [app]; rewrite ?IH; reflexivity.
Qed.

(** ** What one call of [embedExistingReport] does *)

(** The permissions chosen at lines 83-95, for a loaded [embeddingData]. *)
Lemma embedExistingReport_permissions_run (s : Snapshot) (data : EmbeddingData)
  (w : World) :
  embeddingData (env s) = Some data ->
  embedExistingReport_permissions s w
  = (Ok (if userCanCreate data
         then if userCanEdit data then Some Permissions_All
              else Some Permissions_Copy
         else Some Permissions_ReadWrite), w).
Proof.
  intros Hdata. unfold embedExistingReport_permissions. rewrite Hdata.
  cbn [deref truthy_object]. unfold bind, ret.
  destruct (userCanEdit data), (userCanCreate data); reflexivity.
Qed.

(** The calls [embedExistingReport] makes once [embeddingData] is there,
    in order. *)
Lemma embedExistingReport_run (s : Snapshot) (now : Z) (Report : PowerBiReport)
  (data : EmbeddingData) (w : World) :
  embeddingData (env s) = Some data ->
  let h := nextHandle w in
  let c := mkClosure s Report h in
  embedExistingReport s now Report w
  = (Ok tt,
     mkWorld
       (trace w ++
        [SetState (setEmbedType (Some Tag_ExistingReport));
         SetState (setReportType (Some Tag_PowerBiReport));
         SetState (setEditMode (openInEditMode s));
         SetState (setShowNavigation true);
         SetState (setShowFiltersPane false);
         SetState (setShowBookmarksPane false);
         SetState (setViewMode FitToPage);
         SetState (setReportPath
                     (if truthy_string (report_name Report)
                      then concat_nullable (tenantName data) ++ " > "
                             ++ report_name Report
                      else "..."));
         powerbi_reset;
         powerbi_embed h
           (mkReportConfig (report_id Report) (report_embedUrl Report)
              (embedToken (state s))
              (if openInEditMode s then ViewMode_Edit else ViewMode_View)
              (if userCanCreate data
               then if userCanEdit data then Some Permissions_All
                    else Some Permissions_Copy
               else Some Permissions_ReadWrite)
              false true false false false);
         SetState (setEmbeddedReport (Some h));
         SetState (setEmbeddedNewReport None);
         embed_off h "loaded"; embed_on h "loaded" (on_loaded c);
         embed_off h "rendered"; embed_on h "rendered" (on_rendered c);
         embed_off h "pageChanged"; embed_on h "pageChanged" (on_pageChanged c);
         embed_off h "saved"; embed_on h "saved" (on_saved c);
         embed_off h "error"; embed_on h "error" on_error])
       (S h) (store_locals h (declared_locals now) (locals w)) (tasks w)
       (timers w)).
Proof.
  intros Hdata h c. subst h c.
  unfold embedExistingReport, setReportPath_for, embedExistingReport_permissions.
  rewrite Hdata. run_js.
  destruct (truthy_string (report_name Report)), (userCanEdit data),
    (userCanCreate data); run_js; flatten_trace; reflexivity.
Qed.

Lemma embed_calls_app (tr1 tr2 : list Action) :
  embed_calls (tr1 ++ tr2) = (embed_calls tr1 ++ embed_calls tr2)%list.
Proof.
  induction tr1 as [|a tr1 IH]; cbn [app embed_calls].
  - reflexivity.
  - destruct a; cbn [app]; rewrite ?IH; reflexivity.
Qed.

Lemma on_calls_app (tr1 tr2 : list Action) :
  on_calls (tr1 ++ tr2) = (on_calls tr1 ++ on_calls tr2)%list.
Proof.
  induction tr1 as [|a tr1 IH]; cbn [app on_calls].
  - reflexivity.
  - destruct a; cbn [app]; rewrite ?IH; reflexivity.
Qed.

Lemma off_calls_app (tr1 tr2 : list Action) :
  off_calls (tr1 ++ tr2) = (off_calls tr1 ++ off_calls tr2)%list.
Proof.
  induction tr1 as [|a tr1 IH]; cbn [app off_calls].
  - reflexivity.
  - destruct a; cbn [app]; rewrite ?IH; reflexivity.
Qed.

Lemma strict_eq_string_true (a : option string) (b : string) :
  strict_eq_string a b = true <-> a = Some b.
Proof.
  destruct a as [v|]; cbn [strict_eq_string].
  - rewrite String.eqb_eq. split; congruence.
  - split; discriminate.
Qed.

(** ** Permissions of an embedded existing report *)

(** C4.  In [embedExistingReport], for a non-null [embeddingData] whose
    [userCanCreate] is false, the configuration passed to [powerbi.embed]
    has [permissions = Permissions.ReadWrite], whatever [userCanEdit] is;
    and for no non-null [embeddingData] is it [Permissions.Read]: the
    branch of line 94 is never taken. *)
Theorem embedExistingReport_permissions_never_Read :
  forall (s : Snapshot) (now : Z) (Report : PowerBiReport)
         (data : EmbeddingData) (w : World),
    embeddingData (env s) = Some data ->
    exists config,
      embed_calls (trace (snd (embedExistingReport s now Report w)))
      = (embed_calls (trace w) ++ [(nextHandle w, config)])%list
      /\ fst (embedExistingReport_permissions s w) = Ok (cfg_permissions config)
      /\ (userCanCreate data = false ->
          cfg_permissions config = Some Permissions_ReadWrite)
      /\ cfg_permissions config <> Some Permissions_Read.
Proof.
  intros s now Report data w Hdata.
  rewrite (embedExistingReport_run s now Report data w Hdata).
  rewrite (embedExistingReport_permissions_run s data w Hdata).
  cbn [snd fst trace]. rewrite embed_calls_app. cbn [embed_calls].
  eexists. split; [reflexivity|]. cbn [cfg_permissions].
  split; [reflexivity|]. split.
  - intros Hcreate. rewrite Hcreate. reflexivity.
  - destruct (userCanCreate data), (userCanEdit data); discriminate.
Qed.

(** ** Edit mode of an embedded existing report *)

(** C7.  [embedExistingReport] opens the report with [ViewMode.Edit] if
    the [edit] query parameter is the string ["true"], and with
    [ViewMode.View] for every other value and when it is absent; the
    [editMode] state is set to the same boolean. *)
Theorem embedExistingReport_edit_query_flag :
  forall (s : Snapshot) (now : Z) (Report : PowerBiReport)
         (data : EmbeddingData) (w : World),
    embeddingData (env s) = Some data ->
    let edit := URLSearchParams_get (location_search (env s)) "edit" in
    let w' := snd (embedExistingReport s now Report w) in
    exists config,
      embed_calls (trace w')
      = (embed_calls (trace w) ++ [(nextHandle w, config)])%list
      /\ (edit = Some "true" ->
          cfg_viewMode config = ViewMode_Edit
          /\ forall st, editMode (commit st (trace w')) = true)
      /\ (edit <> Some "true" ->
          cfg_viewMode config = ViewMode_View
          /\ forall st, editMode (commit st (trace w')) = false).
Proof.
  intros s now Report data w Hdata edit w'.
  assert (Hedit : forall st, editMode (commit st (trace w')) = openInEditMode s).
  { intros st. subst w'.
    rewrite (embedExistingReport_run s now Report data w Hdata).
    cbn [snd trace]. rewrite commit_app. cbn [commit].
    destruct (commit st (trace w)). reflexivity. }
  subst w'. revert Hedit.
  rewrite (embedExistingReport_run s now Report data w Hdata).
  cbn [snd trace]. intros Hedit. rewrite embed_calls_app. cbn [embed_calls].
  eexists. split; [reflexivity|]. cbn [cfg_viewMode].
  unfold openInEditMode in *. fold edit in Hedit. fold edit.
  split; intros Hq.
  - apply strict_eq_string_true in Hq. rewrite Hq in *.
    split; [reflexivity|exact Hedit].
  - destruct (strict_eq_string edit "true") eqn:E.
    + apply strict_eq_string_true in E. contradiction.
    + split; [reflexivity|exact Hedit].
Qed.

(** ** Handler wiring of a new report *)

Lemma embedNewReport_run (s : Snapshot) (Dataset : PowerBiDataset)
  (data : EmbeddingData) (w : World) :
  embeddingData (env s) = Some data ->
  let h := nextHandle w in
  embedNewReport s Dataset w
  = match embeddedReport (state s) with
    | Some previous =>
        (Ok tt,
         mkWorld
           (trace w ++ embedNewReport_prefix s Dataset data h ++
            [embed_off previous "saved";
             embed_on h "saved" (on_saved_new s Dataset);
             embed_off previous "error";
             embed_on h "error" on_error_new])
           (S h) (locals w) (tasks w) (timers w))
    | None =>
        (Throw (TypeError "off"),
         mkWorld (trace w ++ embedNewReport_prefix s Dataset data h)
           (S h) (locals w) (tasks w) (timers w))
    end.
Proof.
  intros Hdata h. subst h.
  unfold embedNewReport, setReportPath_for, embedNewReport_prefix.
  rewrite Hdata.
  destruct (truthy_string (dataset_name Dataset)),
    (embeddedReport (state s)); run_js; flatten_trace; reflexivity.
Qed.

(** C9.  [embedNewReport] calls [off("saved")] and [off("error")] on the
    [embeddedReport] state cell of its render, never on the object it has
    just created.  When that cell is [null] the first of these calls throws
    after [createReport] has run, and neither the [saved] nor the [error]
    handler of the new report is registered; when it holds a report, both
    handlers are registered on the new object. *)
Theorem embedNewReport_off_on_previous_report :
  forall (s : Snapshot) (Dataset : PowerBiDataset) (data : EmbeddingData)
         (w : World),
    embeddingData (env s) = Some data ->
    let h := nextHandle w in
    let out := embedNewReport s Dataset w in
    (embeddedReport (state s) = None ->
       fst out = Throw (TypeError "off")
       /\ (exists config,
             trace (snd out)
             = (trace w ++ embedNewReport_prefix s Dataset data h)%list
             /\ In (powerbi_createReport h config) (trace (snd out)))
       /\ off_calls (trace (snd out)) = off_calls (trace w)
       /\ on_calls (trace (snd out)) = on_calls (trace w))
    /\ (forall previous, embeddedReport (state s) = Some previous ->
          fst out = Ok tt
          /\ off_calls (trace (snd out))
             = (off_calls (trace w)
                ++ [(previous, "saved"); (previous, "error")])%list
          /\ on_calls (trace (snd out))
             = (on_calls (trace w)
                ++ [(h, "saved", on_saved_new s Dataset);
                    (h, "error", on_error_new)])%list).
Proof.
  intros s Dataset data w Hdata h out. subst out h.
  rewrite (embedNewReport_run s Dataset data w Hdata).
  split.
  - intros Hnone. rewrite Hnone. cbn [fst snd trace].
    split; [reflexivity|]. split.
    + eexists. split; [reflexivity|].
      apply in_or_app. right. unfold embedNewReport_prefix.
      cbn [In]. right. right. right. left. reflexivity.
    + rewrite off_calls_app, on_calls_app.
      cbn [embedNewReport_prefix off_calls on_calls].
      rewrite !app_nil_r. split; reflexivity.
  - intros previous Hsome. rewrite Hsome. cbn [fst snd trace].
    split; [reflexivity|].
    rewrite !off_calls_app, !on_calls_app.
    cbn [embedNewReport_prefix off_calls on_calls app]. split; reflexivity.
Qed.

(** ** Choice of the embedding mode *)






(** The embed effect once its guard holds and the token is there. *)
Lemma embedEffect_run (s : Snapshot) (now : Z) (data : EmbeddingData)
  (tenant : string) (w : World) :
  isAuthenticated (env s) = true ->
  embedContainer_current (env s) = true ->
  embeddingData (env s) = Some data ->
  tenantName data = Some tenant ->
  embedTokenAcquired (state s) = true ->
  embedEffect s now w
  = match find_report s data with
    | Some report =>
        if String.eqb (report_reportType report) "PowerBIReport"
        then async_call (embedExistingReport s now report) w
        else async_call (embedPaginatedReport s report) w
    | None =>
        match find_dataset_by_id s data with
        | Some dataset => async_call (embedNewReport s dataset) w
        | None => (Ok tt, w)
        end
    end.
Proof.
  intros Hauth Hbox Hdata Htenant Htoken.
  unfold embedEffect, embedEffect_guard.
  rewrite Hauth, Hbox, Hdata, Htoken. cbn [andb negb deref].
  unfold bind at 1 2. unfold ret at 1 2. rewrite Htenant.
  cbn [truthy_object]. unfold bind at 1. unfold ret at 1.
  destruct (find_report s data) as [report|].
  - destruct (String.eqb (report_reportType report) "PowerBIReport");
      reflexivity.
  - destruct (find_dataset_by_id s data); reflexivity.
Qed.


(** ** Placeholder pages *)

(** C8.  A render with an unauthenticated user returns the
    [PageNotAccessible] page, and none of its three effects does anything:
    no embedding call, no logging call, no timer; a render with an
    authenticated user whose workspace artifacts are still loading returns
    the [DataLoading] page. *)
Theorem render_placeholder_pages :
  forall (s : Snapshot),
    (isAuthenticated (env s) = false ->
       render s = Ok PageNotAccessible
       /\ forall (w : World) (now : Z),
            step w (run_layoutEffect s) = Some w
            /\ step w (run_embedEffect s now) = Some w
            /\ step w (run_timerEffect s) = Some w)
    /\ (forall data,
          isAuthenticated (env s) = true ->
          embeddingData (env s) = Some data ->
          workspaceArtifactsLoading data = true ->
          render s = Ok DataLoading).
Proof.
  intros s. split.
  - intros Hauth. split.
    + unfold render. rewrite Hauth. reflexivity.
    + intros w now. cbn [step]. unfold top_level, layoutEffect, embedEffect,
        embedEffect_guard, timerEffect.
      rewrite Hauth. cbn [andb]. repeat split.
  - intros data Hauth Hdata Hloading. unfold render.
    rewrite Hauth, Hdata, Hloading. reflexivity.
Qed.

(** ** The expiration display *)



(** A number below one hundred is printed on two characters. *)
Lemma padStart_two_digits (k : Z) :
  0 <= k < 100 -> String.length (padStart (String_of (Some k)) 2 "0") = 2%nat.
Proof.
  intros Hk. rewrite <- (Z2Nat.id k) by lia.
  assert (Hn : (Z.to_nat k < 100)%nat) by lia.
  revert Hn. generalize (Z.to_nat k). clear k Hk. intros n Hn.
  do 100 (destruct n as [|n]; [reflexivity|]). lia.
Qed.

(** With less than one hundred minutes left the display text reads
    [Token Expiration: MM:SS]. *)
Lemma formatTimeToExpire_MM_SS (n : Z) :
  0 <= n < 6000 ->
  exists MM SS,
    formatTimeToExpire (Some n) = "Token Expiration: " ++ MM ++ ":" ++ SS
    /\ String.length MM = 2%nat /\ String.length SS = 2%nat.
Proof.
  intros Hn. unfold formatTimeToExpire. cbn [option_map].
  eexists _, _. split; [reflexivity|]. split.
  - apply padStart_two_digits. split.
    + apply Z.div_pos; lia.
    + apply Z.div_lt_upper_bound; lia.
  - apply padStart_two_digits.
    pose proof (Z.rem_bound_pos n 60). lia.
Qed.

Lemma js_lt_Some (n b : Z) : js_lt (Some n) b = (n <? b).
Proof. reflexivity. Qed.

(** [monitorTokenExpiration] when at least two minutes are left. *)
Lemma monitorTokenExpiration_display (s : Snapshot) (exp : option DateString)
  (now n : Z) (w : World) :
  secondsUntil exp now = Some n ->
  120 <= n ->
  let text := formatTimeToExpire (Some n) in
  monitorTokenExpiration s exp now w
  = (Ok tt,
     record (SetState (setEmbedTokenExpirationDisplay
                         (if String.eqb text
                               (embedTokenExpirationDisplay (state s))
                          then text ++ " " else text))) w).
Proof.
  intros Hn Hge text. unfold monitorTokenExpiration. rewrite Hn.
  rewrite js_lt_Some. replace (n <? 2 * 60) with false by (symmetry; apply Z.ltb_ge; lia).
  reflexivity.
Qed.

(** [monitorTokenExpiration] when less than two minutes are left. *)
Lemma monitorTokenExpiration_refresh (s : Snapshot) (exp : option DateString)
  (now n : Z) (w : World) :
  secondsUntil exp now = Some n ->
  n < 120 ->
  monitorTokenExpiration s exp now w
  = (Ok tt,
     mkWorld (trace w ++ [WebApi_GetEmbedToken]) (nextHandle w) (locals w)
       (tasks w ++ [await_387 s caller_none]) (timers w)).
Proof.
  intros Hn Hlt. unfold monitorTokenExpiration. rewrite Hn.
  rewrite js_lt_Some. replace (n <? 2 * 60) with true by (symmetry; apply Z.ltb_lt; lia).
  reflexivity.
Qed.


(** ** Token refresh *)

(** [monitorTokenExpiration] either asks for a new token or sets the
    display, and never throws. *)
Lemma monitorTokenExpiration_run (s : Snapshot) (exp : option DateString)
  (now : Z) (w : World) :
  exists calls pending,
    monitorTokenExpiration s exp now w
    = (Ok tt,
       mkWorld (trace w ++ calls) (nextHandle w) (locals w) (tasks w ++ pending)
         (timers w))
    /\ ((calls = [WebApi_GetEmbedToken] /\ pending = [await_387 s caller_none])
        \/ (exists display,
              calls = [SetState (setEmbedTokenExpirationDisplay display)]
              /\ pending = [])).
Proof.
  unfold monitorTokenExpiration.
  destruct (js_lt (secondsUntil exp now) (2 * 60)).
  - exists [WebApi_GetEmbedToken], [await_387 s caller_none].
    split; [reflexivity|]. left. split; reflexivity.
  - eexists [SetState _], []. split.
    + rewrite (app_nil_r (tasks w)). reflexivity.
    + right. eexists. split; reflexivity.
Qed.

(** [refreshEmbedToken] once the backend has answered. *)
Lemma refreshEmbedToken_resume_run (s : Snapshot) (tokenResult : EmbedTokenResult)
  (now : Z) (w : World) :
  exists calls pending,
    refreshEmbedToken_resume s tokenResult now w
    = (Ok tt,
       mkWorld
         (trace w ++
          [SetState (setEmbedToken (Some (result_embedToken tokenResult)));
           SetState (setEmbedTokenExpiration
                       (Some (result_embedTokenExpiration tokenResult)));
           SetState (setEmbedTokenExpirationDisplay "refreshing embed token")]
          ++ calls ++ setAccessToken_calls s (result_embedToken tokenResult))
         (nextHandle w) (locals w) (tasks w ++ pending) (timers w))
    /\ ((calls = [WebApi_GetEmbedToken] /\ pending = [await_387 s caller_none])
        \/ (exists display,
              calls = [SetState (setEmbedTokenExpirationDisplay display)]
              /\ pending = [])).
Proof.
  unfold refreshEmbedToken_resume.
  unfold bind at 1 2 3. cbn [set emit]. unfold bind at 1.
  match goal with
  | |- context [monitorTokenExpiration s ?e now ?w0] =>
      destruct (monitorTokenExpiration_run s e now w0)
        as [calls [pending [Hrun Hcalls]]]
  end.
  rewrite Hrun. exists calls, pending. split; [|exact Hcalls].
  unfold setAccessToken_calls.
  destruct (embeddedReport (state s)), (embeddedNewReport (state s));
    run_js; flatten_trace; rewrite ?app_nil_r; reflexivity.
Qed.



(** ** Correlation ids of the log entries *)

Lemma entries_sent_of_trace (m : M unit) (w : World) (calls : list Action) :
  trace (snd (m w)) = (trace w ++ calls)%list ->
  entries_sent m w = logged calls.
Proof.
  intros Htrace. unfold entries_sent. rewrite Htrace, logged_app.
  rewrite skipn_app, skipn_all, Nat.sub_diag. reflexivity.
Qed.

Section LoggedIn.

Variables (s : Snapshot) (acct : AccountInfo) (data : EmbeddingData)
          (sets : list PowerBiDataset).
Hypothesis Haccount : account (env s) = Some acct.
Hypothesis Hdata : embeddingData (env s) = Some data.
Hypothesis Hsets : datasets data = Some sets.

Lemma logViewReportActivity_run (correlationId : string)
  (report : PowerBiReport) (pageName : string) (load render : option Z)
  (w : World) :
  exists e,
    logViewReportActivity s correlationId report pageName load render w
    = (Ok tt, record (WebApi_LogActivity e) w)
    /\ activity_and_correlation e = (Some "ViewReport", Some correlationId)
    /\ LoadDuration e = Some load /\ RenderDuration e = Some render.
Proof.
  unfold logViewReportActivity. rewrite Haccount, Hdata. cbn [deref].
  unfold bind at 1 2. unfold ret at 1 2. rewrite Hsets. cbn [deref].
  unfold bind at 1. unfold ret at 1. unfold emit.
  eexists. split; [reflexivity|]. repeat split.
Qed.

Lemma logPageChangedActivity_run (correlationId : string)
  (report : PowerBiReport) (pageName : string) (render : option Z)
  (w : World) :
  exists e,
    logPageChangedActivity s correlationId report pageName render w
    = (Ok tt, record (WebApi_LogActivity e) w)
    /\ activity_and_correlation e = (Some "PageChanged", Some correlationId).
Proof.
  unfold logPageChangedActivity. rewrite Haccount, Hdata. cbn [deref].
  unfold bind at 1 2. unfold ret at 1 2. rewrite Hsets. cbn [deref].
  unfold bind at 1. unfold ret at 1. unfold emit.
  eexists. split; reflexivity.
Qed.

Lemma logEditReportActivity_run (report : PowerBiReport)
  (found : PowerBiDataset) (w : World) :
  find_dataset (report_datasetId report) sets = Some found ->
  exists e,
    logEditReportActivity s report w = (Ok tt, record (WebApi_LogActivity e) w)
    /\ activity_and_correlation e = (Some "EditReport", Some "").
Proof.
  intros Hfound.
  unfold logEditReportActivity. rewrite Haccount, Hdata. cbn [deref].
  unfold bind at 1 2. unfold ret at 1 2. rewrite Hsets. cbn [deref].
  unfold bind at 1. unfold ret at 1. rewrite Hfound. cbn [deref].
  unfold bind at 1. unfold ret at 1. unfold emit.
  eexists. split; reflexivity.
Qed.

Lemma logCopyReportActivity_run (report : PowerBiReport)
  (reportId reportName : string) (found : PowerBiDataset) (w : World) :
  find_dataset (report_datasetId report) sets = Some found ->
  exists e,
    logCopyReportActivity s report reportId reportName w
    = (Ok tt, record (WebApi_LogActivity e) w)
    /\ activity_and_correlation e = (Some "CopyReport", None).
Proof.
  intros Hfound.
  unfold logCopyReportActivity. rewrite Haccount, Hdata. cbn [deref].
  unfold bind at 1 2. unfold ret at 1 2. rewrite Hsets. cbn [deref].
  unfold bind at 1. unfold ret at 1. rewrite Hfound. cbn [deref].
  unfold bind at 1. unfold ret at 1. unfold emit.
  eexists. split; reflexivity.
Qed.

(** What [embedPaginatedReport] does before its [await]. *)
Lemma embedPaginatedReport_run (Report : PowerBiReport) (w : World) :
  exists e,
    embedPaginatedReport s Report w
    = (Ok tt,
       mkWorld
         (trace w ++
          [powerbi_reset;
           SetState (setReportPath
                       (if truthy_string (report_name Report)
                        then concat_nullable (tenantName data) ++ " > "
                               ++ report_name Report
                        else "..."));
           SetState (setEmbedType (Some Tag_ExistingReport));
           SetState (setReportType (Some Tag_PaginatedReport));
           powerbi_embed_paginated (nextHandle w)
             (mkPaginatedConfig (report_id Report) (report_embedUrl Report)
                (embedToken (state s)) true true);
           SetState (setEmbeddedReport (Some (nextHandle w)));
           SetState (setEmbeddedNewReport None);
           WebApi_LogActivity e])
         (S (nextHandle w)) (locals w)
         (tasks w ++ [await_228 s (nextHandle w)]) (timers w))
    /\ activity_and_correlation e = (Some "ViewReport", Some "").
Proof.
  unfold embedPaginatedReport, setReportPath_for, logViewReportActivity.
  rewrite Haccount, Hdata. run_js. rewrite Hsets.
  destruct (truthy_string (report_name Report)); run_js;
    (eexists; split; [flatten_trace; reflexivity|reflexivity]).
Qed.

End LoggedIn.

Section RenderedHandler.

Variables (c : Closure) (acct : AccountInfo) (data : EmbeddingData)
          (sets : list PowerBiDataset).
Hypothesis Haccount : account (env (cl_snapshot c)) = Some acct.
Hypothesis Hdata : embeddingData (env (cl_snapshot c)) = Some data.
Hypothesis Hsets : datasets data = Some sets.

(** Line 143: the ViewReport entry carries the given identifier and the
    durations the shared variables hold at that moment. *)
Lemma on_rendered_logView_run (correlationId pageName : string) (w : World) :
  exists e,
    on_rendered_logView c correlationId pageName w
    = (Ok tt,
       mkWorld (trace w ++ [WebApi_LogActivity e]) (nextHandle w) (locals w)
         (tasks w ++ [await_143 c]) (timers w))
    /\ activity_and_correlation e = (Some "ViewReport", Some correlationId).
Proof.
  unfold on_rendered_logView. unfold bind at 1. unfold get_locals at 1.
  unfold bind at 1.
  match goal with
  | |- context [logViewReportActivity ?a ?b ?r ?d ?e ?f ?w0] =>
      destruct (logViewReportActivity_run a acct data sets Haccount Hdata
                  Hsets b r d e f w0) as [e0 [Hrun [Hkey _]]]
  end.
  rewrite Hrun. exists e0. split; [reflexivity|exact Hkey].
Qed.

(** Line 152: the PageChanged entry carries the given identifier. *)
Lemma on_rendered_resume_151_run (correlationId pageName : string)
  (w : World) :
  exists e,
    on_rendered_resume_151 c correlationId pageName w
    = (Ok tt,
       mkWorld (trace w ++ [WebApi_LogActivity e]) (nextHandle w) (locals w)
         (tasks w ++ [await_152 c]) (timers w))
    /\ activity_and_correlation e = (Some "PageChanged", Some correlationId).
Proof.
  unfold on_rendered_resume_151. unfold bind at 1. unfold get_locals at 1.
  unfold bind at 1.
  match goal with
  | |- context [logPageChangedActivity ?a ?b ?r ?d ?f ?w0] =>
      destruct (logPageChangedActivity_run a acct data sets Haccount Hdata
                  Hsets b r d f w0) as [e0 [Hrun Hkey]]
  end.
  rewrite Hrun. exists e0. split; [reflexivity|exact Hkey].
Qed.

End RenderedHandler.

(** The [rendered] handler calls [getCorrelationId] on its embedded report
    exactly when it suspends at line 141 or line 150. *)
Lemma on_rendered_pageChange_run (c : Closure) (now : Z) (w : World) :
  exists w',
    on_rendered_pageChange c now w = (Ok tt, w')
    /\ ((trace w' = trace w /\ tasks w' = tasks w)
        \/ (trace w'
            = (trace w ++ [embed_getCorrelationId (cl_embeddedReport c)])%list
            /\ tasks w' = (tasks w ++ [await_150 c])%list)).
Proof.
  unfold on_rendered_pageChange. unfold bind at 1. unfold get_locals at 1.
  destruct (pageChangeInProgress _).
  - eexists. split; [reflexivity|]. right. split; reflexivity.
  - eexists. split; [reflexivity|]. left. split; reflexivity.
Qed.

Lemma run_on_rendered_run (c : Closure) (now : Z) (w : World) :
  exists w',
    run_on_rendered c now w = (Ok tt, w')
    /\ ((trace w' = trace w /\ tasks w' = tasks w)
        \/ (trace w'
            = (trace w ++ [embed_getCorrelationId (cl_embeddedReport c)])%list
            /\ (tasks w' = (tasks w ++ [await_141 c])%list
                \/ tasks w' = (tasks w ++ [await_150 c])%list))).
Proof.
  unfold run_on_rendered.
  unfold bind at 1. unfold get_locals at 1.
  destruct (initialLoadComplete _); cbn [negb].
  - destruct (on_rendered_pageChange_run c now w)
      as [w' [Hrun [[Ht Hk]|[Ht Hk]]]]; exists w'.
    + split; [exact Hrun|]. left. split; assumption.
    + split; [exact Hrun|]. right. split; [exact Ht|]. right. exact Hk.
  - eexists. split; [reflexivity|]. right. split; [reflexivity|].
    left. reflexivity.
Qed.

(** C6 (amended).  A ViewReport entry logged by the [rendered] handler of
    an embedded Power BI report and a PageChanged entry carry in
    [CorrelationId] the identifier with which the [getCorrelationId] call
    of that handler was answered.  The ViewReport entry of a paginated
    report and an EditReport entry carry the empty string, and a CopyReport
    entry is sent without any [CorrelationId] assigned. *)
Theorem CorrelationId_of_logged_entries :
  forall (c : Closure) (acct : AccountInfo) (data : EmbeddingData)
         (sets : list PowerBiDataset),
    account (env (cl_snapshot c)) = Some acct ->
    embeddingData (env (cl_snapshot c)) = Some data ->
    datasets data = Some sets ->
    (forall now w,
       let out := snd (run_on_rendered c now w) in
       tasks out = tasks w
       \/ (trace out
           = (trace w ++ [embed_getCorrelationId (cl_embeddedReport c)])%list
           /\ (tasks out = (tasks w ++ [await_141 c])%list
               \/ tasks out = (tasks w ++ [await_150 c])%list)))
    /\ (forall v now w,
          exists m,
            resume (await_141 c) (resolved_id v) now = Some m
            /\ (report_reportType (cl_Report c) = "PowerBIReport" ->
                entries_sent m w = []
                /\ tasks (snd (m w)) = (tasks w ++ [await_142 c v])%list)
            /\ (report_reportType (cl_Report c) <> "PowerBIReport" ->
                map activity_and_correlation (entries_sent m w)
                = [(Some "ViewReport", Some v)]))
    /\ (forall v p now w,
          exists m,
            resume (await_142 c v) (resolved_page p) now = Some m
            /\ map activity_and_correlation (entries_sent m w)
               = [(Some "ViewReport", Some v)])
    /\ (forall v now w,
          exists m,
            resume (await_150 c) (resolved_id v) now = Some m
            /\ entries_sent m w = []
            /\ tasks (snd (m w)) = (tasks w ++ [await_151 c v])%list)
    /\ (forall v p now w,
          exists m,
            resume (await_151 c v) (resolved_page p) now = Some m
            /\ map activity_and_correlation (entries_sent m w)
               = [(Some "PageChanged", Some v)])
    /\ (forall w,
          map activity_and_correlation
            (entries_sent (embedPaginatedReport (cl_snapshot c) (cl_Report c)) w)
          = [(Some "ViewReport", Some "")])
    /\ (forall found,
          find_dataset (report_datasetId (cl_Report c)) sets = Some found ->
          (forall detail w,
             saveAs detail = false ->
             map activity_and_correlation (entries_sent (run_on_saved c detail) w)
             = [(Some "EditReport", Some "")])
          /\ (forall detail now w,
                exists m,
                  resume (await_173 c detail) resolved_void now = Some m
                  /\ map activity_and_correlation (entries_sent m w)
                     = [(Some "CopyReport", None)])).
Proof.
  intros c acct data sets Hacct Hdata Hsets.
  split; [|split; [|split; [|split; [|split; [|split]]]]].
  - intros now w out. subst out.
    destruct (run_on_rendered_run c now w) as [w' [Hrun [[_ Hk]|Hcall]]];
      rewrite Hrun; cbn [snd].
    + left. exact Hk.
    + right. exact Hcall.
  - intros v now w. eexists. split; [reflexivity|]. split.
    + intros Htype. unfold on_rendered_resume_141.
      apply String.eqb_eq in Htype. rewrite Htype. split.
      * apply (entries_sent_of_trace _ w
                 [embed_getActivePage (cl_embeddedReport c)]).
        reflexivity.
      * reflexivity.
    + intros Htype. unfold on_rendered_resume_141.
      apply String.eqb_neq in Htype. rewrite Htype.
      destruct (on_rendered_logView_run c acct data sets Hacct Hdata Hsets
                  v "" w) as [e [Hrun Hkey]].
      rewrite (entries_sent_of_trace _ w [WebApi_LogActivity e]).
      * cbn [logged map]. rewrite Hkey. reflexivity.
      * rewrite Hrun. reflexivity.
  - intros v p now w. eexists. split; [reflexivity|].
    destruct (on_rendered_logView_run c acct data sets Hacct Hdata Hsets
                v p w) as [e [Hrun Hkey]].
    rewrite (entries_sent_of_trace _ w [WebApi_LogActivity e]).
    + cbn [logged map]. rewrite Hkey. reflexivity.
    + rewrite Hrun. reflexivity.
  - intros v now w. eexists. split; [reflexivity|]. split.
    + apply (entries_sent_of_trace _ w
               [embed_getActivePage (cl_embeddedReport c)]).
      reflexivity.
    + reflexivity.
  - intros v p now w. eexists. split; [reflexivity|].
    destruct (on_rendered_resume_151_run c acct data sets Hacct Hdata Hsets
                v p w) as [e [Hrun Hkey]].
    rewrite (entries_sent_of_trace _ w [WebApi_LogActivity e]).
    + cbn [logged map]. rewrite Hkey. reflexivity.
    + rewrite Hrun. reflexivity.
  - intros w.
    destruct (embedPaginatedReport_run (cl_snapshot c) acct data sets Hacct
                Hdata Hsets (cl_Report c) w) as [e [Hrun Hkey]].
    rewrite (entries_sent_of_trace _ w _ (f_equal (fun r => trace (snd r)) Hrun)).
    cbn [logged map]. rewrite Hkey. reflexivity.
  - intros found Hfound. split.
    + intros detail w Hsave. unfold run_on_saved. rewrite Hsave.
      destruct (logEditReportActivity_run (cl_snapshot c) acct data sets
                  Hacct Hdata Hsets (cl_Report c) found w Hfound)
        as [e0 [Hrun Hkey]].
      rewrite (entries_sent_of_trace _ w [WebApi_LogActivity e0]).
      * cbn [logged map]. rewrite Hkey. reflexivity.
      * unfold async_call. rewrite Hrun. reflexivity.
    + intros detail now w. eexists. split; [reflexivity|].
      unfold on_saved_resume_173.
      destruct (logCopyReportActivity_run (cl_snapshot c) acct data sets
                  Hacct Hdata Hsets (cl_Report c) (reportObjectId detail)
                  (reportName detail) found w Hfound)
        as [e0 [Hrun Hkey]].
      rewrite (entries_sent_of_trace _ w
                 [WebApi_LogActivity e0;
                  navigate ("/reports/" ++ reportObjectId detail
                            ++ "/?edit=true")]).
      * cbn [logged map]. rewrite Hkey. reflexivity.
      * unfold bind at 1. unfold async_call. rewrite Hrun.
        cbn [emit snd trace record]. flatten_trace. reflexivity.
Qed.

(** ** Error events *)

Section Extends.

Variable P : Action -> bool.












End Extends.

































(** C6, as first stated, fails: after a report was viewed in a session
    whose correlation id is ["session-1"], saving it logs an EditReport
    entry whose [CorrelationId] is the empty string. *)
Lemma EditReport_entry_has_empty_CorrelationId :
  option_map (fun w => map activity_and_correlation (logged (trace w)))
    (run initialWorld view_then_save_events)
  = Some [(Some "ViewReport", Some "session-1"); (Some "EditReport", Some "")]
  /\ Some "" <> Some "session-1".
Proof. split; [vm_compute; reflexivity|discriminate]. Qed.

(** ** ViewReport and PageChanged entries *)

Lemma lookup_store_locals (h : Handle) (l : Locals) (ls : list (Handle * Locals)) :
  lookup_locals h (store_locals h l ls) = Some l.
Proof.
  induction ls as [|[h' l'] ls IH]; cbn [store_locals lookup_locals].
  - rewrite Nat.eqb_refl. reflexivity.
  - destruct (Nat.eqb h' h) eqn:E; cbn [lookup_locals].
    + rewrite Nat.eqb_refl. reflexivity.
    + rewrite E. exact IH.
Qed.

Lemma bind_ok {A B : Type} (m : M A) (f : A -> M B) (w w' : World) (a : A) :
  m w = (Ok a, w') -> bind m f w = f a w'.
Proof. intros Hm. unfold bind. rewrite Hm. reflexivity. Qed.

Lemma get_locals_found (h : Handle) (l : Locals) (w : World) :
  lookup_locals h (locals w) = Some l -> get_locals h w = (Ok l, w).
Proof. intros Hl. unfold get_locals. rewrite Hl. reflexivity. Qed.

(** An event with a single registered handler that returns normally. *)
Lemma step_raised_single (w : World) (h : Handle) (event : string)
  (detail : EventDetail) (now : Z) (f : Handler) (w' : World) :
  registered h event (trace w) [] = [f] ->
  run_handler f detail now w = (Ok tt, w') ->
  step w (raised h event detail now) = Some w'.
Proof.
  intros Hreg Hrun. cbn [step]. unfold top_level, async_call, dispatch.
  rewrite Hreg. cbn [run_handlers]. unfold bind. rewrite Hrun. reflexivity.
Qed.

(** Resuming the oldest suspended function, when it returns normally. *)
Lemma step_settled_first (w : World) (t : Task) (rest : list Task)
  (r : Settled) (now : Z) (m : M unit) (w' : World) :
  tasks w = t :: rest ->
  resume t r now = Some m ->
  m (drop_task O w) = (Ok tt, w') ->
  step w (settled O r now) = Some w'.
Proof.
  intros Ht Hm Hrun. cbn [step]. rewrite Ht. cbn [nth_error]. rewrite Hm.
  unfold top_level, async_call. rewrite Hrun. reflexivity.
Qed.

(** Calls other than [on] and [off] leave the registered handlers alone. *)
Lemma registered_quiet (h : Handle) (event : string) (calls tr : list Action)
  (acc : list Handler) :
  on_calls calls = [] -> off_calls calls = [] ->
  registered h event (tr ++ calls) acc = registered h event tr acc.
Proof.
  intros Hon Hoff. rewrite registered_app.
  generalize (registered h event tr acc). clear tr acc.
  induction calls as [|a calls IH]; intros acc; [reflexivity|].
  destruct a; cbn [on_calls off_calls] in Hon, Hoff; try discriminate;
    cbn [registered]; apply IH; assumption.
Qed.

Ltac js_step :=
  erewrite bind_ok by
    first [apply get_locals_found;
           first [eassumption | apply lookup_store_locals]
          | reflexivity].

Lemma drain_step (fuel : nat) (id page : string) (now : Z) (w : World)
  (t : Task) (rest : list Task) (m : M unit) (w' : World) :
  tasks w = t :: rest ->
  resume t (answer t id page) now = Some m ->
  m (drop_task O w) = (Ok tt, w') ->
  drain (S fuel) id page now w = drain fuel id page now w'.
Proof.
  intros Ht Hm Hrun. cbn [drain]. rewrite Ht.
  rewrite (step_settled_first w t rest _ now m w' Ht Hm Hrun). reflexivity.
Qed.

Lemma drain_done (fuel : nat) (id page : string) (now : Z) (w : World) :
  tasks w = [] -> drain fuel id page now w = Some w.
Proof. intros Ht. destruct fuel; cbn [drain]; [|rewrite Ht]; reflexivity. Qed.

Section Session.
Variables (c : Closure) (acct : AccountInfo) (data : EmbeddingData)
            (sets : list PowerBiDataset).
Hypothesis Haccount : account (env (cl_snapshot c)) = Some acct.
Hypothesis Hdata : embeddingData (env (cl_snapshot c)) = Some data.
Hypothesis Hsets : datasets data = Some sets.

(** A [rendered] event after the initial load, with no page change
    pending: nothing happens. *)
Lemma rendered_idle (w : World) (now : Z) (id page : string) :
  settled_session c true false w ->
  deliver (cl_embeddedReport c) w (report_rendered now id page) = Some w.
Proof.
  intros (Hl & Hr & Hp & Ht & l & Hlook & Hv & Hc).
  cbn [deliver].
  rewrite (step_raised_single w _ _ no_detail now _ w Hr).
  - cbn [drain]. rewrite Ht. reflexivity.
  - cbn [run_handler]. unfold async_call, run_on_rendered, on_rendered_pageChange.
    js_step. rewrite Hv. cbn [negb]. js_step. rewrite Hc. reflexivity.
Qed.

(** A [pageChanged] event is remembered only after the initial load. *)
Lemma pageChanged_step (w : World) (now : Z) (viewed changed : bool) :
  settled_session c viewed changed w ->
  exists w',
    deliver (cl_embeddedReport c) w (report_pageChanged now) = Some w'
    /\ settled_session c viewed (if viewed then true else changed) w'
    /\ trace w' = trace w.
Proof.
  intros (Hl & Hr & Hp & Ht & l & Hlook & Hv & Hc).
  cbn [deliver].
  destruct viewed.
  - eexists. split.
    + apply (step_raised_single w _ _ no_detail now _ _ Hp).
      cbn [run_handler]. unfold async_call, run_on_pageChanged.
      js_step. rewrite Hv. reflexivity.
    + cbn [trace tasks locals]. split; [|reflexivity].
      repeat split; try assumption.
      eexists. split; [apply lookup_store_locals|]. split; reflexivity.
  - exists w. split.
    + apply (step_raised_single w _ _ no_detail now _ _ Hp).
      cbn [run_handler]. unfold async_call, run_on_pageChanged.
      js_step. rewrite Hv. reflexivity.
    + split; [|reflexivity]. repeat split; try assumption. eauto.
Qed.

Lemma loaded_step (w : World) (now : Z) (viewed changed : bool) :
  settled_session c viewed changed w ->
  exists w',
    deliver (cl_embeddedReport c) w (report_loaded now) = Some w'
    /\ settled_session c viewed changed w'
    /\ trace w' = trace w.
Proof.
  intros (Hl & Hr & Hp & Ht & l & Hlook & Hv & Hc).
  cbn [deliver]. eexists. split.
  - apply (step_raised_single w _ _ no_detail now _ _ Hl).
    cbn [run_handler]. unfold async_call, run_on_loaded. js_step. reflexivity.
  - cbn [trace tasks locals]. split; [|reflexivity].
    repeat split; try assumption.
    eexists. split; [apply lookup_store_locals|]. split; assumption.
Qed.


(** Lines 144-153 once the ViewReport entry was accepted, with no page
    change pending. *)
Lemma view_completes (fuel : nat) (id page : string) (now : Z) (w : World)
  (l : Locals) :
  tasks w = [await_143 c] ->
  lookup_locals (cl_embeddedReport c) (locals w) = Some l ->
  pageChangeInProgress l = false ->
  exists w',
    drain (S fuel) id page now w = Some w'
    /\ trace w' = trace w /\ tasks w' = []
    /\ exists l', lookup_locals (cl_embeddedReport c) (locals w') = Some l'
                  /\ initialLoadComplete l' = true
                  /\ pageChangeInProgress l' = false.
Proof.
  intros Ht Hlook Hc.
  erewrite drain_step; [| exact Ht | reflexivity |].
  2:{ unfold on_rendered_resume_143, on_rendered_pageChange.
      js_step. js_step. js_step. cbn [pageChangeInProgress]. rewrite Hc.
      reflexivity. }
  eexists. split.
  { apply drain_done. cbn [drop_task tasks]. rewrite Ht. reflexivity. }
  cbn [drop_task trace tasks locals]. rewrite Ht. cbn [remove_nth].
  split; [reflexivity|]. split; [reflexivity|].
  eexists. split; [apply lookup_store_locals|]. split; reflexivity.
Qed.

(** Line 143 and what follows. *)
Lemma view_logs (fuel : nat) (id page pageName : string) (now : Z) (w : World)
  (l : Locals) (m : M unit) :
  tasks w = [] ->
  lookup_locals (cl_embeddedReport c) (locals w) = Some l ->
  pageChangeInProgress l = false ->
  m = on_rendered_logView c id pageName ->
  exists w0 w' e,
    m w = (Ok tt, w0)
    /\ drain (S fuel) id page now w0 = Some w'
    /\ trace w' = (trace w ++ [WebApi_LogActivity e])%list /\ tasks w' = []
    /\ activity_and_correlation e = (Some "ViewReport", Some id)
    /\ exists l', lookup_locals (cl_embeddedReport c) (locals w') = Some l'
                  /\ initialLoadComplete l' = true
                  /\ pageChangeInProgress l' = false.
Proof.
  intros Ht Hlook Hc ->.
  destruct (on_rendered_logView_run c acct data sets Haccount Hdata Hsets
              id pageName w) as [e [Hrun Hkey]].
  rewrite Hrun. rewrite Ht. cbn [app].
  match goal with
  | |- exists w0 w' e', (Ok tt, ?W) = _ /\ _ =>
      destruct (view_completes fuel id page now W l)
        as [w' [Hdrain [Htr [Hts Hl']]]];
        [reflexivity | exact Hlook | exact Hc |];
        exists W, w', e
  end.
  cbn [trace] in Htr. auto 10.
Qed.

(** The first [rendered] event logs ViewReport with the identifier the
    Power BI client answered. *)
Lemma rendered_first_view (w : World) (now : Z) (id page : string) :
  settled_session c false false w ->
  exists w' e,
    deliver (cl_embeddedReport c) w (report_rendered now id page) = Some w'
    /\ settled_session c true false w'
    /\ trace w'
       = (trace w ++ [embed_getCorrelationId (cl_embeddedReport c)]
          ++ (if String.eqb (report_reportType (cl_Report c)) "PowerBIReport"
              then [embed_getActivePage (cl_embeddedReport c)] else [])
          ++ [WebApi_LogActivity e])%list
    /\ activity_and_correlation e = (Some "ViewReport", Some id).
Proof.
  intros (Hl & Hr & Hp & Ht & l & Hlook & Hv & Hc).
  cbn [deliver].
  erewrite (step_raised_single w _ _ no_detail now _ _ Hr).
  2:{ cbn [run_handler]. unfold async_call, run_on_rendered.
      js_step. rewrite Hv. cbn [negb]. js_step. js_step. reflexivity. }
  cbn [record trace nextHandle locals tasks timers]. rewrite Ht, Hc. cbn [app].
  destruct (String.eqb (report_reportType (cl_Report c)) "PowerBIReport") eqn:Htype.
  - erewrite drain_step; [| reflexivity | reflexivity |].
    2:{ unfold on_rendered_resume_141. rewrite Htype. js_step. reflexivity. }
    cbn [drop_task remove_nth record trace nextHandle locals tasks timers app].
    match goal with
    | |- context [drain 2 id page now ?W] =>
        edestruct (view_logs 0 id page page now (drop_task O W))
          as [w0 [w' [e [Hrun [Hdrain [Htr [Hts [Hkey Hl']]]]]]]];
          [reflexivity | apply lookup_store_locals | reflexivity | reflexivity |];
        erewrite (drain_step 1 id page now W); [| reflexivity | reflexivity | exact Hrun]
    end.
    exists w', e. split; [exact Hdrain|]. split; [|split; [|exact Hkey]].
    + unfold settled_session. rewrite Htr. cbn [drop_task trace].
      rewrite !registered_quiet by reflexivity. auto 10.
    + rewrite Htr. cbn [drop_task trace]. rewrite <- !app_assoc. reflexivity.
  - match goal with
    | |- context [drain 3 id page now ?W] =>
        edestruct (view_logs 1 id page "" now (drop_task O W))
          with (m := on_rendered_resume_141 c id)
          as [w0 [w' [e [Hrun [Hdrain [Htr [Hts [Hkey Hl']]]]]]]];
          [reflexivity | apply lookup_store_locals | reflexivity
          | unfold on_rendered_resume_141; rewrite Htype; reflexivity |];
        erewrite (drain_step 2 id page now W); [| reflexivity | reflexivity | exact Hrun]
    end.
    exists w', e. split; [exact Hdrain|]. split; [|split; [|exact Hkey]].
    + unfold settled_session. rewrite Htr. cbn [drop_task trace].
      rewrite !registered_quiet by reflexivity. auto 10.
    + rewrite Htr. cbn [drop_task trace]. rewrite <- !app_assoc. reflexivity.
Qed.

(** A [rendered] event after a remembered page change logs PageChanged. *)
Lemma rendered_after_pageChange (w : World) (now : Z) (id page : string) :
  settled_session c true true w ->
  exists w' e,
    deliver (cl_embeddedReport c) w (report_rendered now id page) = Some w'
    /\ settled_session c true false w'
    /\ trace w'
       = (trace w ++ [embed_getCorrelationId (cl_embeddedReport c);
                      embed_getActivePage (cl_embeddedReport c);
                      WebApi_LogActivity e])%list
    /\ activity_and_correlation e = (Some "PageChanged", Some id).
Proof.
  intros (Hl & Hr & Hp & Ht & l & Hlook & Hv & Hc).
  cbn [deliver].
  erewrite (step_raised_single w _ _ no_detail now _ _ Hr).
  2:{ cbn [run_handler]. unfold async_call, run_on_rendered.
      js_step. rewrite Hv. cbn [negb]. unfold on_rendered_pageChange.
      js_step. rewrite Hc. js_step. js_step. reflexivity. }
  cbn [record trace nextHandle locals tasks timers]. rewrite Ht. cbn [app].
  erewrite drain_step; [| reflexivity | reflexivity |].
  2:{ unfold on_rendered_resume_150. js_step. reflexivity. }
  cbn [drop_task remove_nth record trace nextHandle locals tasks timers app].
  match goal with
  | |- context [drain 2 id page now ?W] =>
      destruct (on_rendered_resume_151_run c acct data sets Haccount Hdata
                  Hsets id page (drop_task O W)) as [e [Hrun Hkey]];
      erewrite (drain_step 1 id page now W);
        [| reflexivity | reflexivity | exact Hrun]
  end.
  cbn [drop_task remove_nth record trace nextHandle locals tasks timers app].
  erewrite drain_step; [| reflexivity | reflexivity | reflexivity].
  cbn [drain drop_task remove_nth record trace nextHandle locals tasks timers app].
  eexists _, e. split; [reflexivity|]. split; [|split; [|exact Hkey]].
  - unfold settled_session. cbn [drop_task remove_nth trace tasks locals].
    rewrite !registered_quiet by reflexivity.
    repeat split; try assumption.
    eexists. split; [apply lookup_store_locals|]. split; [exact Hv|reflexivity].
  - cbn [drop_task trace]. rewrite <- !app_assoc. reflexivity.
Qed.

Lemma map_Activity_of_key (e : ActivityLogEntry) (a k : option string) :
  activity_and_correlation e = (a, k) -> Activity e = a.
Proof. unfold activity_and_correlation. congruence. Qed.

(** Handlers that run one at a time log what [claimed_activities] says. *)
Theorem handlers_run_to_completion_log_as_claimed :
  forall (es : list ReportEvent) (viewed changed : bool) (w : World),
    settled_session c viewed changed w ->
    (viewed = false -> changed = false) ->
    exists w',
      deliver_all (cl_embeddedReport c) w es = Some w'
      /\ tasks w' = []
      /\ map Activity (logged (trace w'))
         = (map Activity (logged (trace w))
            ++ map Some (claimed_activities viewed changed es))%list.
Proof.
  induction es as [|e es IH]; intros viewed changed w Hs Hvc.
  - exists w. cbn [deliver_all claimed_activities map]. rewrite app_nil_r.
    split; [reflexivity|]. split; [apply Hs|reflexivity].
  - cbn [deliver_all claimed_activities]. destruct e as [now|now id page|now].
    + destruct (loaded_step w now viewed changed Hs) as [w1 [Hd [Hs1 Htr]]].
      rewrite Hd. destruct (IH viewed changed w1 Hs1 Hvc) as [w' [Hall [Ht Hlog]]].
      exists w'. rewrite Htr in Hlog. auto.
    + destruct viewed.
      * destruct changed.
        -- destruct (rendered_after_pageChange w now id page Hs)
             as [w1 [e [Hd [Hs1 [Htr Hkey]]]]].
           rewrite Hd.
           destruct (IH true false w1 Hs1 (fun H => eq_refl))
             as [w' [Hall [Ht Hlog]]].
           exists w'. split; [exact Hall|]. split; [exact Ht|].
           rewrite Hlog, Htr, logged_app, map_app. cbn [logged map app].
           rewrite (map_Activity_of_key _ _ _ Hkey), <- app_assoc. reflexivity.
        -- rewrite (rendered_idle w now id page Hs).
           destruct (IH true false w Hs (fun H => eq_refl))
             as [w' [Hall [Ht Hlog]]].
           exists w'. auto.
      * rewrite (Hvc eq_refl) in *.
        destruct (rendered_first_view w now id page Hs)
          as [w1 [e [Hd [Hs1 [Htr Hkey]]]]].
        rewrite Hd.
        destruct (IH true false w1 Hs1 (fun H => eq_refl))
          as [w' [Hall [Ht Hlog]]].
        exists w'. split; [exact Hall|]. split; [exact Ht|].
        rewrite Hlog, Htr, !logged_app, !map_app.
        destruct (String.eqb (report_reportType (cl_Report c)) "PowerBIReport");
          cbn [logged map app]; rewrite (map_Activity_of_key _ _ _ Hkey);
          rewrite ?app_nil_r, <- ?app_assoc; reflexivity.
    + destruct (pageChanged_step w now viewed changed Hs) as [w1 [Hd [Hs1 Htr]]].
      rewrite Hd.
      destruct (IH viewed (if viewed then true else changed) w1 Hs1)
        as [w' [Hall [Ht Hlog]]].
      { destruct viewed; [discriminate|exact Hvc]. }
      exists w'. rewrite Htr in Hlog. auto.
Qed.

End Session.

(** [embedExistingReport] leaves its handlers wired and idle. *)
Lemma embedExistingReport_starts_session (s : Snapshot) (now : Z)
  (Report : PowerBiReport) (data : EmbeddingData) (w : World) :
  embeddingData (env s) = Some data ->
  tasks w = [] ->
  settled_session (mkClosure s Report (nextHandle w)) false false
    (snd (embedExistingReport s now Report w))
  /\ logged (trace (snd (embedExistingReport s now Report w)))
     = logged (trace w).
Proof.
  intros Hdata Ht.
  rewrite (embedExistingReport_run s now Report data w Hdata).
  cbn [snd]. unfold settled_session.
  cbn [cl_embeddedReport trace tasks locals]. rewrite !registered_app.
  cbn [registered]. rewrite !Nat.eqb_refl. cbn.
  repeat split; try reflexivity; try assumption.
  - eexists. split; [apply lookup_store_locals|]. split; reflexivity.
  - rewrite logged_app. cbn [logged]. apply app_nil_r.
Qed.

(** The claimed log holds ViewReport once if there is a [rendered] event,
    and never otherwise. *)
Lemma claimed_activities_ViewReport_count (es : list ReportEvent)
  (viewed changed : bool) :
  count_occ string_dec (claimed_activities viewed changed es) "ViewReport"
  = if viewed then O else if existsb is_report_rendered es then 1%nat else O.
Proof.
  revert viewed changed.
  induction es as [|e es IH]; intros viewed changed;
    cbn [claimed_activities existsb].
  - destruct viewed; reflexivity.
  - destruct e; cbn [is_report_rendered orb].
    + apply IH.
    + rewrite count_occ_app. rewrite count_occ_app. rewrite (IH true false).
      destruct viewed, changed; reflexivity.
    + rewrite IH. reflexivity.
Qed.

(** When every handler of an embedded Power BI report finishes before the
    next event is raised, the entries it logs are the expected ones:
    ViewReport once, on the first [rendered] event, and PageChanged for a
    [rendered] event that follows a [pageChanged] event raised after the
    initial load. *)
Theorem embedExistingReport_logs_as_claimed_without_overlap :
  forall (s : Snapshot) (now : Z) (Report : PowerBiReport)
         (acct : AccountInfo) (data : EmbeddingData)
         (sets : list PowerBiDataset) (w : World) (es : list ReportEvent),
    account (env s) = Some acct ->
    embeddingData (env s) = Some data ->
    datasets data = Some sets ->
    tasks w = [] ->
    exists w',
      deliver_all (nextHandle w) (snd (embedExistingReport s now Report w)) es
      = Some w'
      /\ tasks w' = []
      /\ map Activity (logged (trace w'))
         = (map Activity (logged (trace w))
            ++ map Some (claimed_activities false false es))%list.
Proof.
  intros s now Report acct data sets w es Hacct Hdata Hsets Ht.
  destruct (embedExistingReport_starts_session s now Report data w Hdata Ht)
    as [Hsession Hlogged].
  destruct (handlers_run_to_completion_log_as_claimed
              (mkClosure s Report (nextHandle w)) acct data sets Hacct Hdata
              Hsets es false false _ Hsession (fun _ => eq_refl))
    as [w' [Hall [Htasks Hlog]]].
  exists w'. split; [exact Hall|]. split; [exact Htasks|].
  rewrite Hlog, Hlogged. reflexivity.
Qed.

(** C3 at a failing input.  Two [rendered] events, one handler at a time:
    one ViewReport entry.  The same two events with the second one raised
    while the handler of the first is still awaiting: two ViewReport
    entries, because [initialLoadComplete] is only set after the awaits of
    lines 141-143. *)
Theorem ViewReport_logged_twice_when_rendered_overlaps :
  option_map (fun w => map Activity (logged (trace w)))
    (run initialWorld sequential_rendered_events)
  = Some [Some "ViewReport"]
  /\ option_map (fun w => map Activity (logged (trace w)))
       (run initialWorld overlapping_rendered_events)
     = Some [Some "ViewReport"; Some "ViewReport"].
Proof. split; vm_compute; reflexivity. Qed.

(* ===================================================================== *)
(** * Concrete runs                                                       *)
(* ===================================================================== *)



Lemma embedExistingReport_permissions_never_Read_witness :
  exists config,
    embed_calls
      (trace (snd (embedExistingReport sample_snapshot 1000 sample_report
                     initialWorld)))
    = (embed_calls (trace initialWorld) ++ [(nextHandle initialWorld, config)])%list
    /\ fst (embedExistingReport_permissions sample_snapshot initialWorld)
       = Ok (cfg_permissions config)
    /\ (userCanCreate sample_data = false ->
        cfg_permissions config = Some Permissions_ReadWrite)
    /\ cfg_permissions config <> Some Permissions_Read.
Proof.
  exact (embedExistingReport_permissions_never_Read sample_snapshot 1000
           sample_report sample_data initialWorld eq_refl).
Defined.


Lemma CorrelationId_of_logged_entries_witness :
  let c := mkClosure sample_snapshot sample_report O in
  (forall v p now w,
     exists m,
       resume (await_142 c v) (resolved_page p) now = Some m
       /\ map activity_and_correlation (entries_sent m w)
          = [(Some "ViewReport", Some v)])
  /\ (forall detail w,
        saveAs detail = false ->
        map activity_and_correlation (entries_sent (run_on_saved c detail) w)
        = [(Some "EditReport", Some "")]).
Proof.
  intros c.
  destruct (CorrelationId_of_logged_entries c sample_account sample_data
              [sample_dataset] eq_refl eq_refl eq_refl)
    as [_ [_ [Hview [_ [_ [_ Hsaved]]]]]].
  split; [exact Hview|].
  exact (proj1 (Hsaved sample_dataset eq_refl)).
Defined.

Lemma embedExistingReport_edit_query_flag_witness :
  exists config,
    embed_calls
      (trace (snd (embedExistingReport sample_snapshot 1000 sample_report
                     initialWorld)))
    = [(O, config)]
    /\ cfg_viewMode config = ViewMode_Edit
    /\ forall st,
         editMode
           (commit st
              (trace (snd (embedExistingReport sample_snapshot 1000
                             sample_report initialWorld))))
         = true.
Proof.
  destruct (embedExistingReport_edit_query_flag sample_snapshot 1000
              sample_report sample_data initialWorld eq_refl)
    as [config [Hcalls [Hedit _]]].
  exists config. split; [exact Hcalls|]. apply Hedit. reflexivity.
Defined.

Lemma render_placeholder_pages_witness :
  render signed_out_snapshot = Ok PageNotAccessible
  /\ step initialWorld (run_embedEffect signed_out_snapshot 1000)
     = Some initialWorld
  /\ render loading_snapshot = Ok DataLoading.
Proof.
  destruct (render_placeholder_pages signed_out_snapshot) as [Hout _].
  destruct (Hout eq_refl) as [Hpage Heffects].
  destruct (Heffects initialWorld 1000) as [_ [Hembed _]].
  destruct (render_placeholder_pages loading_snapshot) as [_ Hloading].
  split; [exact Hpage|]. split; [exact Hembed|].
  exact (Hloading _ eq_refl eq_refl eq_refl).
Defined.

Lemma embedNewReport_off_on_previous_report_witness :
  fst (embedNewReport sample_snapshot sample_dataset initialWorld)
  = Throw (TypeError "off")
  /\ on_calls (trace (snd (embedNewReport sample_snapshot sample_dataset
                            initialWorld)))
     = []
  /\ on_calls (trace (snd (embedNewReport embedded_snapshot sample_dataset
                            initialWorld)))
     = [(O, "saved", on_saved_new embedded_snapshot sample_dataset);
        (O, "error", on_error_new)]
  /\ off_calls (trace (snd (embedNewReport embedded_snapshot sample_dataset
                             initialWorld)))
     = [(7%nat, "saved"); (7%nat, "error")].
Proof.
  destruct (embedNewReport_off_on_previous_report sample_snapshot
              sample_dataset sample_data initialWorld eq_refl) as [Hnull _].
  destruct (Hnull eq_refl) as [Hthrow [_ [_ Hon]]].
  destruct (embedNewReport_off_on_previous_report embedded_snapshot
              sample_dataset sample_data initialWorld eq_refl) as [_ Hprev].
  destruct (Hprev 7%nat eq_refl) as [_ [Hoff Hon']].
  split; [exact Hthrow|]. split; [exact Hon|]. split; [exact Hon'|exact Hoff].
Defined.


(* ===================================================================== *)
(** * Further properties                                                  *)
(* ===================================================================== *)

(** ** Projections of a trace *)

Lemma token_requests_app (tr1 tr2 : list Action) :
  token_requests (tr1 ++ tr2) = (token_requests tr1 + token_requests tr2)%nat.
Proof.
  induction tr1 as [|a tr1 IH]; cbn [app token_requests]; [reflexivity|].
  destruct a; cbn [Nat.add]; rewrite ?IH; reflexivity.
Qed.

Lemma setAccessToken_targets_app (tr1 tr2 : list Action) :
  setAccessToken_targets (tr1 ++ tr2)
  = (setAccessToken_targets tr1 ++ setAccessToken_targets tr2)%list.
Proof.
  induction tr1 as [|a tr1 IH]; cbn [app setAccessToken_targets]; [reflexivity|].
  destruct a; cbn [app]; rewrite ?IH; reflexivity.
Qed.

Lemma resize_listeners_app (tr1 tr2 : list Action) :
  resize_listeners (tr1 ++ tr2)
  = (resize_listeners tr1 + resize_listeners tr2)%nat.
Proof.
  induction tr1 as [|a tr1 IH]; cbn [app resize_listeners]; [reflexivity|].
  destruct a; cbn [Nat.add]; rewrite ?IH; reflexivity.
Qed.


(** ** First acquisition of the embed token *)

(** [getEmbedToken] once the backend has answered. *)
Lemma getEmbedToken_resume_run (s : Snapshot) (tokenResult : EmbedTokenResult)
  (now : Z) (w : World) :
  exists calls pending,
    getEmbedToken_resume s tokenResult now w
    = (Ok tt,
       mkWorld
         (trace w ++
          [SetState (setEmbedToken (Some (result_embedToken tokenResult)));
           SetState (setEmbedTokenExpiration
                       (Some (result_embedTokenExpiration tokenResult)));
           SetState (setEmbedTokenAcquired true)] ++ calls)
         (nextHandle w) (locals w) (tasks w ++ pending) (timers w))
    /\ ((calls = [WebApi_GetEmbedToken] /\ pending = [await_387 s caller_none])
        \/ (exists display,
              calls = [SetState (setEmbedTokenExpirationDisplay display)]
              /\ pending = [])).
Proof.
  unfold getEmbedToken_resume.
  unfold bind at 1 2 3. cbn [set emit].
  match goal with
  | |- context [monitorTokenExpiration s ?e now ?w0] =>
      destruct (monitorTokenExpiration_run s e now w0)
        as [calls [pending [Hrun Hcalls]]]
  end.
  rewrite Hrun. exists calls, pending. split; [|exact Hcalls].
  cbn [record trace nextHandle locals tasks timers]. flatten_trace. reflexivity.
Qed.

(** X1. While no embed token has been acquired the embed effect only
    requests one (lines 433-436, 377-379).  The answer stores the token, its
    expiration and [embedTokenAcquired] and embeds nothing (lines 380-382);
    the embed effect of the render that follows embeds the report of the
    route with that token (lines 437-444, 97-104). *)
Theorem report_is_embedded_with_the_acquired_token :
  forall (s : Snapshot) (now : Z) (data : EmbeddingData) (tenant : string)
         (w : World),
    isAuthenticated (env s) = true ->
    embedContainer_current (env s) = true ->
    embeddingData (env s) = Some data ->
    tenantName data = Some tenant ->
    embedTokenAcquired (state s) = false ->
    embedEffect s now w
    = (Ok tt,
       mkWorld (trace w ++ [WebApi_GetEmbedToken]) (nextHandle w) (locals w)
         (tasks w ++ [await_378 s]) (timers w))
    /\ forall (tokenResult : EmbedTokenResult) (now1 : Z) (w1 : World),
         exists m,
           resume (await_378 s) (resolved_token tokenResult) now1 = Some m
           /\ fst (m w1) = Ok tt
           /\ embed_calls (trace (snd (m w1))) = embed_calls (trace w1)
           /\ forall (st : CompState) (report : PowerBiReport) (now2 : Z)
                     (w2 : World),
                let next := next_render (env s) st (trace (snd (m w1))) in
                embedTokenAcquired (state next) = true
                /\ (find_report s data = Some report ->
                    report_reportType report = "PowerBIReport" ->
                    exists config,
                      embed_calls (trace (snd (embedEffect next now2 w2)))
                      = (embed_calls (trace w2) ++ [(nextHandle w2, config)])%list
                      /\ cfg_id config = report_id report
                      /\ cfg_accessToken config
                         = Some (result_embedToken tokenResult)).
Proof.
  intros s now data tenant w Hauth Hbox Hdata Htenant Hacq. split.
  - unfold embedEffect, embedEffect_guard, getEmbedToken.
    rewrite Hauth, Hbox, Hdata, Hacq. cbn [andb negb deref].
    unfold bind at 1 2. unfold ret at 1 2. rewrite Htenant. reflexivity.
  - intros tokenResult now1 w1. cbn [resume]. eexists. split; [reflexivity|].
    destruct (getEmbedToken_resume_run s tokenResult now1 w1)
      as [calls [pending [Hrun Hcalls]]].
    rewrite Hrun. cbn [fst snd trace]. split; [reflexivity|].
    assert (Hstate : forall st,
              let st' := commit st
                           (trace w1 ++
                            [SetState (setEmbedToken
                                         (Some (result_embedToken tokenResult)));
                             SetState (setEmbedTokenExpiration
                                         (Some (result_embedTokenExpiration
                                                  tokenResult)));
                             SetState (setEmbedTokenAcquired true)] ++ calls) in
              embedTokenAcquired st' = true
              /\ embedToken st' = Some (result_embedToken tokenResult)).
    { intros st. cbv zeta. rewrite !commit_app. cbn [commit].
      destruct Hcalls as [[Hc _]|[display [Hc _]]]; subst calls;
        cbn [commit]; destruct (commit st (trace w1)); split; reflexivity. }
    split.
    + rewrite embed_calls_app, embed_calls_app.
      destruct Hcalls as [[Hc _]|[display [Hc _]]]; subst calls;
        cbn [embed_calls]; rewrite app_nil_r; reflexivity.
    + intros st report now2 w2.
      destruct (Hstate st) as [Hacq' Htok]. cbv zeta in Hacq', Htok.
      unfold next_render.
      match goal with
      | |- context [mkSnapshot (env s) ?st'] =>
          set (next := mkSnapshot (env s) st')
      end.
      split; [exact Hacq'|]. intros Hfind Htype.
      rewrite (embedEffect_run next now2 data tenant w2 Hauth Hbox Hdata
                 Htenant Hacq').
      change (find_report next data) with (find_report s data).
      rewrite Hfind. apply String.eqb_eq in Htype. rewrite Htype.
      unfold async_call.
      rewrite (embedExistingReport_run next now2 report data w2 Hdata).
      cbn [snd trace]. rewrite embed_calls_app. cbn [embed_calls].
      eexists. split; [reflexivity|]. cbn [cfg_id cfg_accessToken].
      split; [reflexivity|exact Htok].
Qed.

(** ** Guard of the embed effect *)


(** ** Expiration that is missing or does not parse *)

(** X3. [monitorTokenExpiration] on a null expiration reads it as the
    epoch and asks for a new token; on a string that is no date the
    comparison with 120 is false, no token is requested and the display
    reads NaN:NaN (lines 405-417). *)
Theorem monitorTokenExpiration_on_missing_or_invalid_expiration :
  forall (s : Snapshot) (now : Z) (w : World),
    (0 <= now ->
     monitorTokenExpiration s None now w
     = (Ok tt,
        mkWorld (trace w ++ [WebApi_GetEmbedToken]) (nextHandle w) (locals w)
          (tasks w ++ [await_387 s caller_none]) (timers w)))
    /\ (exists display,
          monitorTokenExpiration s (Some DateInvalid) now w
          = (Ok tt,
             record (SetState (setEmbedTokenExpirationDisplay display)) w)
          /\ (display = "Token Expiration: NaN:NaN"
              \/ display = "Token Expiration: NaN:NaN ")).
Proof.
  intros s now w. split.
  - intros Hnow.
    apply (monitorTokenExpiration_refresh s None now ((0 - now) / 1000) w).
    + reflexivity.
    + apply Z.div_lt_upper_bound; lia.
  - unfold monitorTokenExpiration. cbn [secondsUntil getTime js_lt].
    change (formatTimeToExpire None) with "Token Expiration: NaN:NaN".
    destruct (String.eqb "Token Expiration: NaN:NaN"
                (embedTokenExpirationDisplay (state s)));
      eexists; (split; [reflexivity|]); [right|left]; reflexivity.
Qed.

(** ** Shape of the expiration display *)

(** X4. With two minutes or more and less than a hundred minutes left,
    the display is ["Token Expiration: "], two characters of minutes, a
    colon and two characters of seconds, with at most one space appended
    (lines 412-417). *)
Theorem expiration_display_reads_MM_SS :
  forall (s : Snapshot) (exp : option DateString) (now n : Z) (w : World),
    secondsUntil exp now = Some n ->
    120 <= n < 6000 ->
    exists MM SS display,
      monitorTokenExpiration s exp now w
      = (Ok tt, record (SetState (setEmbedTokenExpirationDisplay display)) w)
      /\ String.length MM = 2%nat /\ String.length SS = 2%nat
      /\ (display = "Token Expiration: " ++ MM ++ ":" ++ SS
          \/ display = ("Token Expiration: " ++ MM ++ ":" ++ SS) ++ " ").
Proof.
  intros s exp now n w Hn Hrange.
  destruct (formatTimeToExpire_MM_SS n) as [MM [SS [Htext [HMM HSS]]]]; [lia|].
  exists MM, SS. eexists. split.
  - apply (monitorTokenExpiration_display s exp now n w Hn). lia.
  - split; [exact HMM|]. split; [exact HSS|]. rewrite <- Htext.
    destruct (String.eqb _ _); [right|left]; reflexivity.
Qed.

(** ** Height of the embed container *)

Lemma container_heights_app (tr1 tr2 : list Action) :
  container_heights (tr1 ++ tr2)
  = (container_heights tr1 ++ container_heights tr2)%list.
Proof.
  induction tr1 as [|a tr1 IH]; cbn [app container_heights]; [reflexivity|].
  destruct a; cbn [app]; rewrite ?IH; reflexivity.
Qed.

Lemma layoutEffect_run (s : Snapshot) (w : World) :
  isAuthenticated (env s) = true ->
  embedContainer_current (env s) = true ->
  step w (run_layoutEffect s)
  = Some (mkWorld
            (trace w ++
             [container_style_height
                (innerHeight (env s) - (if is_paginated s then 86 else 119));
              addEventListener_resize])
            (nextHandle w) (locals w) (tasks w) (timers w)).
Proof.
  intros Hauth Hbox. cbn [step].
  unfold top_level, async_call, layoutEffect, setReportContainerHeight,
    is_paginated.
  rewrite Hauth, Hbox. cbn [andb].
  destruct (reportType (state s)) as [[|]|]; run_js; flatten_trace;
    rewrite <- Z.sub_add_distr; reflexivity.
Qed.

(** X5. Every run of the layout effect of an authenticated render with a
    mounted container sets the container height to the window height less
    86 pixels for a paginated report and less 119 pixels otherwise, and
    adds one more [resize] listener: none is ever removed (lines 290-296,
    422-427). *)
Theorem layoutEffect_sizes_container_and_adds_a_listener_each_time :
  forall (ss : list Snapshot) (w : World),
    (forall s, In s ss ->
       isAuthenticated (env s) = true /\ embedContainer_current (env s) = true) ->
    exists w',
      run w (map run_layoutEffect ss) = Some w'
      /\ container_heights (trace w')
         = (container_heights (trace w)
            ++ map (fun s => innerHeight (env s)
                             - (if is_paginated s then 86 else 119)) ss)%list
      /\ resize_listeners (trace w')
         = (resize_listeners (trace w) + length ss)%nat.
Proof.
  induction ss as [|s ss IH]; intros w Hall.
  - exists w. cbn [map run length]. rewrite app_nil_r, Nat.add_0_r. auto.
  - destruct (Hall s (or_introl eq_refl)) as [Hauth Hbox].
    cbn [map run]. rewrite (layoutEffect_run s w Hauth Hbox).
    destruct (IH (mkWorld
                    (trace w ++
                     [container_style_height
                        (innerHeight (env s)
                         - (if is_paginated s then 86 else 119));
                      addEventListener_resize])
                    (nextHandle w) (locals w) (tasks w) (timers w)))
      as [w' [Hrun [Hheights Hlisteners]]].
    { intros s' Hin. apply Hall. right. exact Hin. }
    exists w'. split; [exact Hrun|]. cbn [trace] in Hheights, Hlisteners.
    rewrite Hheights, Hlisteners, container_heights_app, resize_listeners_app.
    cbn [container_heights resize_listeners map length app].
    rewrite <- app_assoc. cbn [app]. split; [reflexivity|lia].
Qed.

(** ** Log entries for a report whose dataset is not listed *)

(** X6. When the dataset of a report is not among [embeddingData.datasets],
    ViewReport and PageChanged entries are sent with [Dataset] undefined
    (optional chaining, lines 310 and 328), while [logEditReportActivity]
    and [logCopyReportActivity] throw on [.name] (lines 344 and 359) before
    anything is sent, so saving such a report logs nothing. *)
Theorem log_entries_when_the_dataset_is_unknown :
  forall (s : Snapshot) (acct : AccountInfo) (data : EmbeddingData)
         (sets : list PowerBiDataset) (report : PowerBiReport),
    account (env s) = Some acct ->
    embeddingData (env s) = Some data ->
    datasets data = Some sets ->
    find_dataset (report_datasetId report) sets = None ->
    (forall v p load render w,
       exists e,
         logViewReportActivity s v report p load render w
         = (Ok tt, record (WebApi_LogActivity e) w)
         /\ DatasetId e = Some (report_datasetId report)
         /\ Dataset e = Some None)
    /\ (forall v p render w,
          exists e,
            logPageChangedActivity s v report p render w
            = (Ok tt, record (WebApi_LogActivity e) w)
            /\ DatasetId e = Some (report_datasetId report)
            /\ Dataset e = Some None)
    /\ (forall w,
          logEditReportActivity s report w = (Throw (TypeError "name"), w))
    /\ (forall reportId reportName w,
          logCopyReportActivity s report reportId reportName w
          = (Throw (TypeError "name"), w))
    /\ (forall h detail w,
          saveAs detail = false ->
          run_on_saved (mkClosure s report h) detail w
          = (Ok tt, record (unhandled (TypeError "name")) w)).
Proof.
  intros s acct data sets report Hacct Hdata Hsets Hnone.
  assert (Hedit : forall w,
            logEditReportActivity s report w = (Throw (TypeError "name"), w)).
  { intros w. unfold logEditReportActivity. rewrite Hacct, Hdata. cbn [deref].
    unfold bind at 1 2. unfold ret at 1 2. rewrite Hsets. cbn [deref].
    unfold bind at 1. unfold ret at 1. rewrite Hnone. reflexivity. }
  split; [|split; [|split; [|split]]].
  - intros v p load render w. unfold logViewReportActivity.
    rewrite Hacct, Hdata. cbn [deref]. unfold bind at 1 2. unfold ret at 1 2.
    rewrite Hsets. cbn [deref]. unfold bind at 1. unfold ret at 1.
    rewrite Hnone. eexists. split; [reflexivity|]. split; reflexivity.
  - intros v p render w. unfold logPageChangedActivity.
    rewrite Hacct, Hdata. cbn [deref]. unfold bind at 1 2. unfold ret at 1 2.
    rewrite Hsets. cbn [deref]. unfold bind at 1. unfold ret at 1.
    rewrite Hnone. eexists. split; [reflexivity|]. split; reflexivity.
  - exact Hedit.
  - intros reportId reportName w. unfold logCopyReportActivity.
    rewrite Hacct, Hdata. cbn [deref].
    unfold bind at 1 2. unfold ret at 1 2. rewrite Hsets. cbn [deref].
    unfold bind at 1. unfold ret at 1. rewrite Hnone. reflexivity.
  - intros h detail w Hsave. unfold run_on_saved. rewrite Hsave.
    cbn [cl_snapshot cl_Report]. unfold async_call. rewrite Hedit. reflexivity.
Qed.

(** ** Toolbars *)

(** The setter calls of [embedPaginatedReport], whether or not its log
    call succeeds. *)
Lemma embedPaginatedReport_commit (s : Snapshot) (Report : PowerBiReport)
  (data : EmbeddingData) (w : World) (st : CompState) :
  embeddingData (env s) = Some data ->
  commit st (trace (snd (embedPaginatedReport s Report w)))
  = commit st
      (trace w ++
       [SetState (setReportPath
                    (if truthy_string (report_name Report)
                     then concat_nullable (tenantName data) ++ " > "
                            ++ report_name Report
                     else "..."));
        SetState (setEmbedType (Some Tag_ExistingReport));
        SetState (setReportType (Some Tag_PaginatedReport));
        SetState (setEmbeddedReport (Some (nextHandle w)));
        SetState (setEmbeddedNewReport None)]).
Proof.
  intros Hdata.
  unfold embedPaginatedReport, setReportPath_for, logViewReportActivity.
  rewrite Hdata. run_js.
  destruct (truthy_string (report_name Report)), (account (env s)) as [acct|],
    (datasets data) as [sets|]; run_js; rewrite !commit_app; reflexivity.
Qed.

(** X7. The render after [embedExistingReport] shows the report toolbar
    bound to the new report, the render after [embedPaginatedReport] shows
    no toolbar, the render after [embedNewReport] shows the new-report
    toolbar, each with the report path the function has set; no render
    shows both toolbars (lines 59-80, 128-129, 195-226, 239-269, 478-491). *)
Theorem toolbar_follows_the_embedding_mode :
  forall (s : Snapshot) (now : Z) (Report : PowerBiReport)
         (Dataset : PowerBiDataset) (data : EmbeddingData)
         (e : Env) (d : EmbeddingData) (st : CompState) (w : World),
    embeddingData (env s) = Some data ->
    isAuthenticated e = true ->
    embeddingData e = Some d ->
    workspaceArtifactsLoading d = false ->
    let display := embedTokenExpirationDisplay (commit st (trace w)) in
    let path_of (name suffix : string) :=
      if truthy_string name
      then concat_nullable (tenantName data) ++ " > " ++ suffix
      else "..." in
    render (next_render e st (trace (snd (embedExistingReport s now Report w))))
    = Ok (ReportPage (path_of (report_name Report) (report_name Report)) display
            (Some (Some (nextHandle w))) None)
    /\ render (next_render e st (trace (snd (embedPaginatedReport s Report w))))
       = Ok (ReportPage (path_of (report_name Report) (report_name Report))
               display None None)
    /\ render (next_render e st (trace (snd (embedNewReport s Dataset w))))
       = Ok (ReportPage
               (path_of (dataset_name Dataset) "New Report [not saved]") display
               None (Some (Some (nextHandle w))))
    /\ forall s' path text a b,
         render s' <> Ok (ReportPage path text (Some a) (Some b)).
Proof.
  intros s now Report Dataset data e d st w Hdata Hauth Hd Hloading display
    path_of. subst display path_of.
  split; [|split; [|split]].
  - rewrite (embedExistingReport_run s now Report data w Hdata).
    unfold render, next_render. cbn [env state snd trace].
    rewrite Hauth, Hd, Hloading. rewrite commit_app. cbn [negb commit].
    destruct (commit st (trace w)). reflexivity.
  - unfold render, next_render. cbn [env state].
    rewrite (embedPaginatedReport_commit s Report data w st Hdata).
    rewrite Hauth, Hd, Hloading. rewrite commit_app. cbn [negb commit].
    destruct (commit st (trace w)). reflexivity.
  - rewrite (embedNewReport_run s Dataset data w Hdata).
    unfold render, next_render, embedNewReport_prefix. cbn [env state].
    rewrite Hauth, Hd, Hloading.
    destruct (embeddedReport (state s)); cbn [snd trace];
      rewrite !commit_app; cbn [negb commit];
      destruct (commit st (trace w)); reflexivity.
  - intros s' path text a b. unfold render.
    destruct (negb (isAuthenticated (env s'))); [discriminate|].
    destruct (embeddingData (env s')) as [d'|]; [|discriminate].
    destruct (workspaceArtifactsLoading d'); [discriminate|].
    destruct (embedType (state s')) as [[|]|]; cbn; discriminate.
Qed.

(** ** Tokens that are about to expire when they arrive *)

(** [refreshEmbedToken] answered with a token that has less than two
    minutes left asks for the next one at once. *)
Lemma refresh_answered_with_short_lived_token (s : Snapshot)
  (tokenResult : EmbedTokenResult) (now : Z) (w : World) :
  js_lt (secondsUntil (Some (result_embedTokenExpiration tokenResult)) now) 120
  = true ->
  bind (refreshEmbedToken_resume s tokenResult now)
    (fun _ => after_refresh caller_none) w
  = (Ok tt,
     mkWorld
       (trace w ++
        [SetState (setEmbedToken (Some (result_embedToken tokenResult)));
         SetState (setEmbedTokenExpiration
                     (Some (result_embedTokenExpiration tokenResult)));
         SetState (setEmbedTokenExpirationDisplay "refreshing embed token");
         WebApi_GetEmbedToken]
        ++ setAccessToken_calls s (result_embedToken tokenResult))
       (nextHandle w) (locals w) (tasks w ++ [await_387 s caller_none])
       (timers w)).
Proof.
  intros Hshort.
  unfold refreshEmbedToken_resume, monitorTokenExpiration, refreshEmbedToken,
    setAccessToken_calls.
  change (2 * 60) with 120. rewrite Hshort. cbn [after_refresh].
  destruct (embeddedReport (state s)), (embeddedNewReport (state s));
    run_js; flatten_trace; reflexivity.
Qed.

(** X8. A refresh answered with a token that has less than two minutes
    left asks for the next token at once: as long as such answers arrive,
    each one is followed by one more request and no timer is involved
    (lines 385-411). *)
Theorem refresh_repeats_while_tokens_are_short_lived :
  forall (s : Snapshot) (answers : list (EmbedTokenResult * Z)) (w : World),
    tasks w = [await_387 s caller_none] ->
    (forall a, In a answers ->
       js_lt (secondsUntil (Some (result_embedTokenExpiration (fst a))) (snd a))
         120 = true) ->
    exists w',
      run w (map (fun a => settled O (resolved_token (fst a)) (snd a)) answers)
      = Some w'
      /\ tasks w' = [await_387 s caller_none]
      /\ timers w' = timers w
      /\ token_requests (trace w')
         = (token_requests (trace w) + length answers)%nat.
Proof.
  intros s answers. induction answers as [|[r now] answers IH]; intros w Ht Hall.
  - exists w. cbn [map run length]. rewrite Nat.add_0_r. auto.
  - cbn [map run fst snd].
    erewrite (step_settled_first w _ _ _ now _ _ Ht); [| reflexivity |].
    2:{ apply refresh_answered_with_short_lived_token.
        apply (Hall (r, now)). left. reflexivity. }
    cbn [drop_task trace nextHandle locals tasks timers]. rewrite Ht.
    cbn [remove_nth app].
    match goal with
    | |- context [run ?W _] => destruct (IH W) as [w' [Hrun [Ht' [Htm Hreq]]]]
    end.
    { reflexivity. }
    { intros a Hin. apply Hall. right. exact Hin. }
    exists w'. split; [exact Hrun|]. split; [exact Ht'|].
    cbn [timers trace] in Htm, Hreq. split; [exact Htm|].
    rewrite Hreq, !token_requests_app. cbn [token_requests length].
    assert (Hnone : token_requests
                      (setAccessToken_calls s (result_embedToken r)) = O).
    { unfold setAccessToken_calls.
      destruct (embeddedReport (state s)), (embeddedNewReport (state s));
        reflexivity. }
    rewrite Hnone. lia.
Qed.

(** ** Paginated reports *)

Lemma step_run_embedEffect (s : Snapshot) (now : Z) (w w' : World) :
  embedEffect s now w = (Ok tt, w') ->
  step w (run_embedEffect s now) = Some w'.
Proof.
  intros Hrun. cbn [step]. unfold top_level, async_call. rewrite Hrun.
  reflexivity.
Qed.




(** ** Saving a report *)


Lemma setAccessToken_calls_targets (s : Snapshot) (token : string) :
  setAccessToken_targets (setAccessToken_calls s token)
  = embedded_objects (state s).
Proof.
  unfold setAccessToken_calls, embedded_objects.
  destruct (embeddedReport (state s)), (embeddedNewReport (state s));
    reflexivity.
Qed.


(** A rejected promise ends the function that awaited it. *)
Lemma step_settled_rejected (w : World) (t : Task) (rest : list Task) (now : Z) :
  tasks w = t :: rest ->
  step w (settled O rejected now)
  = Some (record (unhandled Rejection) (drop_task O w)).
Proof.
  intros Ht. cbn [step]. rewrite Ht. cbn [nth_error].
  destruct t; reflexivity.
Qed.



(** ** Where a refreshed token is sent *)

(** X12. The [saved] handler of a report refreshes the token through the
    [refreshEmbedToken] of the render that embedded it: [setAccessToken] is
    called on the embedded objects that render held, which do not include
    the report embedded by that very effect; the new token is stored in
    the state all the same (lines 126-129, 168-171, 385-399). *)
Theorem refreshed_token_goes_to_the_objects_of_the_embedding_render :
  forall (s : Snapshot) (t0 t1 t2 : Z) (report : PowerBiReport)
         (data : EmbeddingData) (tenant : string) (detail : EventDetail)
         (tokenResult : EmbedTokenResult) (w : World),
    isAuthenticated (env s) = true ->
    embedContainer_current (env s) = true ->
    embeddingData (env s) = Some data ->
    tenantName data = Some tenant ->
    embedTokenAcquired (state s) = true ->
    find_report s data = Some report ->
    report_reportType report = "PowerBIReport" ->
    tasks w = [] ->
    saveAs detail = true ->
    exists w' config,
      run w [run_embedEffect s t0;
             raised (nextHandle w) "saved" detail t1;
             settled O (resolved_token tokenResult) t2] = Some w'
      /\ embed_calls (trace w')
         = (embed_calls (trace w) ++ [(nextHandle w, config)])%list
      /\ setAccessToken_targets (trace w')
         = (setAccessToken_targets (trace w) ++ embedded_objects (state s))%list
      /\ forall st, embedToken (commit st (trace w'))
                    = Some (result_embedToken tokenResult).
Proof.
  intros s t0 t1 t2 report data tenant detail tokenResult w Hauth Hbox Hdata
    Htenant Hacq Hfind Htype Ht Hsave.
  cbn [run].
  erewrite (step_run_embedEffect s t0 w).
  2:{ rewrite (embedEffect_run s t0 data tenant w Hauth Hbox Hdata Htenant
                 Hacq), Hfind.
      apply String.eqb_eq in Htype. rewrite Htype. unfold async_call.
      rewrite (embedExistingReport_run s t0 report data w Hdata).
      reflexivity. }
  erewrite step_raised_single.
  2:{ cbn [trace]. rewrite registered_app. cbn [registered].
      rewrite !Nat.eqb_refl. cbn. reflexivity. }
  2:{ cbn [run_handler]. unfold async_call, run_on_saved, refreshEmbedToken.
      rewrite Hsave. run_js. rewrite Ht. reflexivity. }
  cbn [cl_snapshot app].
  match goal with
  | |- context [step ?W (settled O _ _)] =>
      destruct (refreshEmbedToken_resume_run s tokenResult t2 (drop_task O W))
        as [calls [pending [Hrun Hcalls]]]
  end.
  erewrite step_settled_first; [| reflexivity | reflexivity |].
  2:{ unfold bind at 1. rewrite Hrun. cbn [after_refresh]. run_js.
      reflexivity. }
  cbn [drop_task remove_nth trace nextHandle locals tasks timers].
  eexists _, _. split; [reflexivity|]. cbn [trace].
  assert (Hquiet : setAccessToken_targets calls = [] /\ embed_calls calls = []
                   /\ forall st, embedToken (commit st calls) = embedToken st).
  { destruct Hcalls as [[Hc _]|[display [Hc _]]]; subst calls;
      (split; [reflexivity|split; [reflexivity|]]);
      intros st; cbn [commit]; destruct st; reflexivity. }
  destruct Hquiet as [Hq1 [Hq2 Hq3]].
  assert (Hsilent : forall st,
             commit st (setAccessToken_calls s (result_embedToken tokenResult))
             = st).
  { intros st. unfold setAccessToken_calls.
    destruct (embeddedReport (state s)), (embeddedNewReport (state s));
      reflexivity. }
  split; [|split].
  - rewrite !embed_calls_app. cbn [embed_calls].
    rewrite ?embed_calls_app, Hq2.
    unfold setAccessToken_calls.
    destruct (embeddedReport (state s)), (embeddedNewReport (state s));
      cbn [embed_calls app]; rewrite ?app_nil_r; reflexivity.
  - rewrite !setAccessToken_targets_app. cbn [setAccessToken_targets].
    rewrite ?setAccessToken_targets_app, Hq1, setAccessToken_calls_targets.
    cbn [setAccessToken_targets app]. rewrite !app_nil_r. reflexivity.
  - intros st. rewrite !commit_app. cbn [commit].
    rewrite ?commit_app, Hsilent. cbn [commit]. rewrite Hq3.
    match goal with
    | |- embedToken (applyUpdate (applyUpdate (applyUpdate ?x _) _) _) = _ =>
        destruct x
    end.
    reflexivity.
Qed.

(** ** Durations in the log *)

Ltac tidy_world :=
  cbn [record drop_task remove_nth trace nextHandle locals tasks timers app
       cl_snapshot cl_Report cl_embeddedReport declared_locals timerStart
       initialLoadComplete pageChangeInProgress loadDuration renderDuration].

Ltac raise_on_new_report :=
  erewrite step_raised_single;
  [ | cbn [trace record]; rewrite ?registered_app; cbn [registered];
      rewrite ?Nat.eqb_refl; cbn; reflexivity | ].

(** X13. The ViewReport entry carries the time from the embed call to the
    [loaded] event and to the first [rendered] event; the PageChanged entry
    carries the time from the [pageChanged] event to the [rendered] event
    that follows it, and no load duration (lines 117-165, 298-330). *)
Theorem durations_are_measured_from_embedding_and_from_the_page_change :
  forall (s : Snapshot) (t0 tL tR tP tR2 : Z) (Report : PowerBiReport)
         (acct : AccountInfo) (data : EmbeddingData)
         (sets : list PowerBiDataset) (id1 p1 id2 p2 : string) (w : World),
    account (env s) = Some acct ->
    embeddingData (env s) = Some data ->
    datasets data = Some sets ->
    report_reportType Report = "PowerBIReport" ->
    tasks w = [] ->
    exists w' e1 e2,
      deliver_all (nextHandle w) (snd (embedExistingReport s t0 Report w))
        [report_loaded tL; report_rendered tR id1 p1;
         report_pageChanged tP; report_rendered tR2 id2 p2] = Some w'
      /\ logged (trace w') = (logged (trace w) ++ [e1; e2])%list
      /\ Activity e1 = Some "ViewReport"
      /\ PageName e1 = Some p1
      /\ LoadDuration e1 = Some (Some (tL - t0))
      /\ RenderDuration e1 = Some (Some (tR - t0))
      /\ Activity e2 = Some "PageChanged"
      /\ PageName e2 = Some p2
      /\ LoadDuration e2 = None
      /\ RenderDuration e2 = Some (Some (tR2 - tP)).
Proof.
  intros s t0 tL tR tP tR2 Report acct data sets id1 p1 id2 p2 w Hacct Hdata
    Hsets Htype Ht.
  apply String.eqb_eq in Htype.
  rewrite (embedExistingReport_run s t0 Report data w Hdata). cbn [snd].
  cbn [deliver_all deliver].
  raise_on_new_report.
  2:{ cbn [run_handler]. unfold async_call, run_on_loaded. js_step.
      reflexivity. }
  tidy_world.
  raise_on_new_report.
  2:{ cbn [run_handler]. unfold async_call, run_on_rendered.
      js_step. cbn [initialLoadComplete declared_locals negb].
      js_step. js_step. reflexivity. }
  tidy_world. rewrite Ht. cbn [app].
  erewrite drain_step; [| reflexivity | reflexivity |].
  2:{ unfold on_rendered_resume_141. cbn [cl_Report]. rewrite Htype.
      js_step. reflexivity. }
  tidy_world.
  erewrite drain_step; [| reflexivity | reflexivity |].
  2:{ unfold on_rendered_logView. js_step.
      unfold logViewReportActivity. cbn [cl_snapshot].
      rewrite Hacct, Hdata. run_js. rewrite Hsets. run_js. reflexivity. }
  tidy_world.
  erewrite drain_step; [| reflexivity | reflexivity |].
  2:{ unfold on_rendered_resume_143, on_rendered_pageChange.
      js_step. js_step. js_step. reflexivity. }
  tidy_world. rewrite drain_done by reflexivity.
  raise_on_new_report.
  2:{ cbn [run_handler]. unfold async_call, run_on_pageChanged. js_step.
      reflexivity. }
  tidy_world.
  raise_on_new_report.
  2:{ cbn [run_handler]. unfold async_call, run_on_rendered,
        on_rendered_pageChange.
      js_step. cbn [initialLoadComplete negb]. js_step.
      cbn [pageChangeInProgress]. js_step. js_step. reflexivity. }
  tidy_world.
  erewrite drain_step; [| reflexivity | reflexivity |].
  2:{ unfold on_rendered_resume_150. js_step. reflexivity. }
  tidy_world.
  erewrite drain_step; [| reflexivity | reflexivity |].
  2:{ unfold on_rendered_resume_151. js_step.
      unfold logPageChangedActivity. cbn [cl_snapshot].
      rewrite Hacct, Hdata. run_js. rewrite Hsets. run_js. reflexivity. }
  tidy_world.
  erewrite drain_step; [| reflexivity | reflexivity | reflexivity].
  tidy_world. cbn [drain].
  eexists _, _, _. split; [reflexivity|]. tidy_world.
  rewrite !logged_app. cbn [logged app]. rewrite !app_nil_r.
  rewrite <- !app_assoc. cbn [app].
  split; [reflexivity|].
  cbn [Activity PageName LoadDuration RenderDuration].
  repeat split.
Qed.

(** X14. When the log call of the ViewReport entry is rejected, the
    initial load is not marked complete: a [pageChanged] event after it is
    not remembered, and the next [rendered] event sends a ViewReport entry
    again, timed from the embed call (lines 138-145, 157-165). *)
Theorem ViewReport_is_sent_again_after_a_rejected_log :
  forall (s : Snapshot) (t0 tR tP tR2 a1 a2 a3 b1 b2 b3 : Z)
         (Report : PowerBiReport) (acct : AccountInfo) (data : EmbeddingData)
         (sets : list PowerBiDataset) (id1 p1 id2 p2 : string) (w : World),
    account (env s) = Some acct ->
    embeddingData (env s) = Some data ->
    datasets data = Some sets ->
    report_reportType Report = "PowerBIReport" ->
    tasks w = [] ->
    exists w' e1 e2,
      run (snd (embedExistingReport s t0 Report w))
        [raised (nextHandle w) "rendered" no_detail tR;
         settled O (resolved_id id1) a1;
         settled O (resolved_page p1) a2;
         settled O rejected a3;
         raised (nextHandle w) "pageChanged" no_detail tP;
         raised (nextHandle w) "rendered" no_detail tR2;
         settled O (resolved_id id2) b1;
         settled O (resolved_page p2) b2;
         settled O resolved_void b3] = Some w'
      /\ tasks w' = []
      /\ logged (trace w') = (logged (trace w) ++ [e1; e2])%list
      /\ activity_and_correlation e1 = (Some "ViewReport", Some id1)
      /\ RenderDuration e1 = Some (Some (tR - t0))
      /\ activity_and_correlation e2 = (Some "ViewReport", Some id2)
      /\ RenderDuration e2 = Some (Some (tR2 - t0))
      /\ exists l, lookup_locals (nextHandle w) (locals w') = Some l
                   /\ initialLoadComplete l = true
                   /\ pageChangeInProgress l = false.
Proof.
  intros s t0 tR tP tR2 a1 a2 a3 b1 b2 b3 Report acct data sets id1 p1 id2 p2
    w Hacct Hdata Hsets Htype Ht.
  apply String.eqb_eq in Htype.
  rewrite (embedExistingReport_run s t0 Report data w Hdata). cbn [snd].
  cbn [run].
  raise_on_new_report.
  2:{ cbn [run_handler]. unfold async_call, run_on_rendered.
      js_step. cbn [initialLoadComplete declared_locals negb].
      js_step. js_step. reflexivity. }
  tidy_world. rewrite Ht. cbn [app].
  erewrite step_settled_first; [| reflexivity | reflexivity |].
  2:{ unfold on_rendered_resume_141. cbn [cl_Report]. rewrite Htype.
      js_step. reflexivity. }
  tidy_world.
  erewrite step_settled_first; [| reflexivity | reflexivity |].
  2:{ unfold on_rendered_logView. js_step.
      unfold logViewReportActivity. cbn [cl_snapshot].
      rewrite Hacct, Hdata. run_js. rewrite Hsets. run_js. reflexivity. }
  tidy_world.
  erewrite step_settled_rejected; [| reflexivity].
  unfold record, drop_task. tidy_world.
  raise_on_new_report.
  2:{ cbn [run_handler]. unfold async_call, run_on_pageChanged. js_step.
      reflexivity. }
  tidy_world.
  raise_on_new_report.
  2:{ cbn [run_handler]. unfold async_call, run_on_rendered.
      js_step. cbn [initialLoadComplete declared_locals negb].
      js_step. js_step. reflexivity. }
  tidy_world.
  erewrite step_settled_first; [| reflexivity | reflexivity |].
  2:{ unfold on_rendered_resume_141. cbn [cl_Report]. rewrite Htype.
      js_step. reflexivity. }
  tidy_world.
  erewrite step_settled_first; [| reflexivity | reflexivity |].
  2:{ unfold on_rendered_logView. js_step.
      unfold logViewReportActivity. cbn [cl_snapshot].
      rewrite Hacct, Hdata. run_js. rewrite Hsets. run_js. reflexivity. }
  tidy_world.
  erewrite step_settled_first; [| reflexivity | reflexivity |].
  2:{ unfold on_rendered_resume_143, on_rendered_pageChange.
      js_step. js_step. js_step. reflexivity. }
  tidy_world.
  eexists _, _, _. split; [reflexivity|]. tidy_world.
  split; [reflexivity|].
  rewrite !logged_app. cbn [logged app]. rewrite !app_nil_r.
  rewrite <- !app_assoc. cbn [app].
  split; [reflexivity|].
  do 4 (split; [reflexivity|]).
  eexists. split; [apply lookup_store_locals|]. split; reflexivity.
Qed.

(** ** How often an activity is logged *)

Lemma activity_count_app (a : string) (l1 l2 : list (option string)) :
  activity_count a (l1 ++ l2) = (activity_count a l1 + activity_count a l2)%nat.
Proof.
  unfold activity_count. rewrite filter_app, length_app. reflexivity.
Qed.

Lemma activity_count_claimed (a : string) (l : list string) :
  activity_count a (map Some l) = count_occ string_dec l a.
Proof.
  unfold activity_count.
  induction l as [|b l IH]; cbn [map filter count_occ]; [reflexivity|].
  destruct (string_dec b a) as [->|Hne].
  - rewrite String.eqb_refl. cbn [length]. rewrite IH. reflexivity.
  - destruct (String.eqb a b) eqn:Hab.
    + apply String.eqb_eq in Hab. congruence.
    + exact IH.
Qed.

Lemma claimed_activities_PageChanged_count (es : list ReportEvent)
  (viewed changed : bool) :
  (count_occ string_dec (claimed_activities viewed changed es) "PageChanged"
   <= (if changed then 1 else 0)
      + length (filter is_report_pageChanged es))%nat.
Proof.
  revert viewed changed.
  induction es as [|e es IH]; intros viewed changed;
    cbn [claimed_activities filter].
  - cbn. lia.
  - destruct e; cbn [is_report_pageChanged].
    + apply IH.
    + rewrite !count_occ_app. specialize (IH true false).
      destruct viewed, changed; cbn in *; lia.
    + specialize (IH viewed (if viewed then true else changed)).
      destruct viewed, changed; cbn [length] in *; lia.
Qed.

(** X15. When each handler of an embedded report finishes before the
    next event is raised, ViewReport is logged once if the report is ever
    rendered and never otherwise, and there are at most as many
    PageChanged entries as [pageChanged] events (lines 130-165). *)
Theorem ViewReport_logged_once_when_handlers_do_not_overlap :
  forall (s : Snapshot) (now : Z) (Report : PowerBiReport)
         (acct : AccountInfo) (data : EmbeddingData)
         (sets : list PowerBiDataset) (w : World) (es : list ReportEvent),
    account (env s) = Some acct ->
    embeddingData (env s) = Some data ->
    datasets data = Some sets ->
    tasks w = [] ->
    exists w',
      deliver_all (nextHandle w) (snd (embedExistingReport s now Report w)) es
      = Some w'
      /\ activity_count "ViewReport" (map Activity (logged (trace w')))
         = (activity_count "ViewReport" (map Activity (logged (trace w)))
            + if existsb is_report_rendered es then 1 else 0)%nat
      /\ (activity_count "PageChanged" (map Activity (logged (trace w')))
          <= activity_count "PageChanged" (map Activity (logged (trace w)))
             + length (filter is_report_pageChanged es))%nat.
Proof.
  intros s now Report acct data sets w es Hacct Hdata Hsets Ht.
  destruct (embedExistingReport_logs_as_claimed_without_overlap s now Report
              acct data sets w es Hacct Hdata Hsets Ht)
    as [w' [Hall [_ Hlog]]].
  exists w'. split; [exact Hall|].
  rewrite Hlog, !activity_count_app, !activity_count_claimed.
  rewrite claimed_activities_ViewReport_count.
  split; [reflexivity|].
  pose proof (claimed_activities_PageChanged_count es false false) as Hle.
  cbn [Nat.add] in Hle. lia.
Qed.

(** ** Pending timers *)

Lemma timerEffect_run (s : Snapshot) (w : World) :
  isAuthenticated (env s) = true ->
  embedTokenAcquired (state s) = true ->
  step w (run_timerEffect s)
  = Some (mkWorld (trace w ++ [setTimeout s 1000]) (nextHandle w) (locals w)
            (tasks w) (timers w ++ [s])).
Proof.
  intros Hauth Hacq. cbn [step]. unfold top_level, async_call, timerEffect.
  rewrite Hauth, Hacq. reflexivity.
Qed.

(** X16. Every run of the timer effect of an authenticated render that
    has a token adds a pending timeout and clears none; a timeout that
    fires is consumed and checks the expiration of its own render,
    requesting a token when that one has less than two minutes left
    (lines 403-411, 462-468). *)
Theorem timers_are_never_cleared_and_fire_once :
  forall (ss : list Snapshot) (w : World),
    Forall (fun s => isAuthenticated (env s) = true
                     /\ embedTokenAcquired (state s) = true) ss ->
    exists w',
      run w (map run_timerEffect ss) = Some w'
      /\ timers w' = (timers w ++ ss)%list
      /\ tasks w' = tasks w
      /\ token_requests (trace w') = token_requests (trace w)
      /\ forall (n : nat) (s : Snapshot) (now : Z),
           nth_error (timers w') n = Some s ->
           exists w'',
             step w' (timeout n now) = Some w''
             /\ timers w'' = remove_nth n (timers w')
             /\ if js_lt (secondsUntil (embedTokenExpiration (state s)) now)
                     (2 * 60)
                then token_requests (trace w'')
                     = S (token_requests (trace w'))
                     /\ tasks w'' = (tasks w' ++ [await_387 s caller_none])%list
                else token_requests (trace w'') = token_requests (trace w')
                     /\ tasks w'' = tasks w'.
Proof.
  intros ss w Hall.
  assert (Hrun : exists w',
             run w (map run_timerEffect ss) = Some w'
             /\ timers w' = (timers w ++ ss)%list
             /\ tasks w' = tasks w
             /\ token_requests (trace w') = token_requests (trace w)).
  { revert w. induction Hall as [|s ss [Hauth Hacq] _ IH]; intros w.
    - exists w. cbn [map run]. rewrite app_nil_r. auto.
    - cbn [map run]. rewrite (timerEffect_run s w Hauth Hacq).
      destruct (IH (mkWorld (trace w ++ [setTimeout s 1000]) (nextHandle w)
                      (locals w) (tasks w) (timers w ++ [s])))
        as [w' [Hrun [Htimers [Htasks Hreq]]]].
      exists w'. split; [exact Hrun|]. cbn [timers tasks trace] in *.
      rewrite Htimers, Htasks, Hreq, <- app_assoc, token_requests_app.
      cbn [token_requests app]. auto with arith. }
  destruct Hrun as [w' [Hrun [Htimers [Htasks Hreq]]]].
  exists w'. do 4 (split; [assumption|]).
  intros n s now Hn. cbn [step]. rewrite Hn.
  eexists. split; [reflexivity|].
  unfold top_level, async_call, monitorTokenExpiration.
  destruct (js_lt (secondsUntil (embedTokenExpiration (state s)) now) (2 * 60)).
  - unfold refreshEmbedToken. run_js. cbn [snd timers trace tasks drop_timer].
    rewrite token_requests_app. cbn [token_requests].
    split; [reflexivity|]. split; [lia|reflexivity].
  - run_js. cbn [snd timers trace tasks drop_timer].
    rewrite token_requests_app. cbn [token_requests].
    split; [reflexivity|]. split; [lia|reflexivity].
Qed.

(** ** Concrete runs of the further properties *)

Lemma report_is_embedded_with_the_acquired_token_witness :
  embedEffect first_snapshot 1000 initialWorld
  = (Ok tt,
     mkWorld [WebApi_GetEmbedToken] O [] [await_378 first_snapshot] [])
  /\ exists m config,
       resume (await_378 first_snapshot) (resolved_token sample_token) 1500
       = Some m
       /\ embed_calls
            (trace
               (snd (embedEffect
                       (next_render sample_env initialState
                          (trace (snd (m initialWorld))))
                       2000 initialWorld)))
          = [(O, config)]
       /\ cfg_id config = "r1"
       /\ cfg_accessToken config = Some "token-2".
Proof.
  pose proof (report_is_embedded_with_the_acquired_token first_snapshot 1000
                sample_data "Contoso" initialWorld eq_refl eq_refl eq_refl
                eq_refl eq_refl) as [Hrequest Hanswer].
  split; [exact Hrequest|].
  destruct (Hanswer sample_token 1500 initialWorld)
    as [m [Hm [_ [_ Hnext]]]].
  pose proof (Hnext initialState sample_report 2000 initialWorld) as Hrender.
  cbv zeta in Hrender. destruct Hrender as [_ Hembed].
  destruct (Hembed eq_refl eq_refl) as [config [Hcalls [Hid Htoken]]].
  exists m, config. split; [exact Hm|]. split; [exact Hcalls|].
  split; [exact Hid|exact Htoken].
Defined.


Lemma monitorTokenExpiration_on_missing_or_invalid_expiration_witness :
  monitorTokenExpiration sample_snapshot None 1000 initialWorld
  = (Ok tt,
     mkWorld [WebApi_GetEmbedToken] O [] [await_387 sample_snapshot caller_none]
       []).
Proof.
  apply (monitorTokenExpiration_on_missing_or_invalid_expiration
           sample_snapshot 1000 initialWorld).
  lia.
Defined.

Lemma expiration_display_reads_MM_SS_witness :
  exists MM SS display,
    monitorTokenExpiration embedded_snapshot (Some (DateAt 3600000)) 1000
      initialWorld
    = (Ok tt,
       record (SetState (setEmbedTokenExpirationDisplay display)) initialWorld)
    /\ String.length MM = 2%nat /\ String.length SS = 2%nat
    /\ (display = "Token Expiration: " ++ MM ++ ":" ++ SS
        \/ display = ("Token Expiration: " ++ MM ++ ":" ++ SS) ++ " ").
Proof.
  apply (expiration_display_reads_MM_SS embedded_snapshot
           (Some (DateAt 3600000)) 1000 3599 initialWorld).
  - reflexivity.
  - lia.
Defined.

Lemma layoutEffect_sizes_container_and_adds_a_listener_each_time_witness :
  exists w',
    run initialWorld
      (map run_layoutEffect
         [sample_snapshot; paginated_embedded_snapshot; sample_snapshot])
    = Some w'
    /\ container_heights (trace w') = [681; 714; 681]
    /\ resize_listeners (trace w') = 3%nat.
Proof.
  apply (layoutEffect_sizes_container_and_adds_a_listener_each_time
           [sample_snapshot; paginated_embedded_snapshot; sample_snapshot]
           initialWorld).
  intros s [<-|[<-|[<-|[]]]]; split; reflexivity.
Defined.

Lemma log_entries_when_the_dataset_is_unknown_witness :
  (exists e,
     logViewReportActivity sample_snapshot "session-1" orphan_report "Overview"
       None (Some 1000) initialWorld
     = (Ok tt, record (WebApi_LogActivity e) initialWorld)
     /\ DatasetId e = Some "d9"
     /\ Dataset e = Some None)
  /\ logEditReportActivity sample_snapshot orphan_report initialWorld
     = (Throw (TypeError "name"), initialWorld)
  /\ run_on_saved (mkClosure sample_snapshot orphan_report O) save_detail
       initialWorld
     = (Ok tt, record (unhandled (TypeError "name")) initialWorld).
Proof.
  destruct (log_entries_when_the_dataset_is_unknown sample_snapshot
              sample_account sample_data [sample_dataset] orphan_report
              eq_refl eq_refl eq_refl eq_refl)
    as [Hview [_ [Hedit [_ Hsaved]]]].
  split; [apply Hview|]. split; [apply Hedit|].
  apply Hsaved. reflexivity.
Defined.

Lemma toolbar_follows_the_embedding_mode_witness :
  render (next_render sample_env initialState (trace report_embedded_world))
  = Ok (ReportPage "Contoso > Sales Report" "" (Some (Some O)) None)
  /\ render
       (next_render sample_env initialState
          (trace (snd (embedPaginatedReport sample_snapshot sample_paginated
                         initialWorld))))
     = Ok (ReportPage "Contoso > Invoices" "" None None)
  /\ render
       (next_render sample_env initialState (trace new_report_embedded_world))
     = Ok (ReportPage "Contoso > New Report [not saved]" "" None
             (Some (Some O))).
Proof.
  pose proof (toolbar_follows_the_embedding_mode sample_snapshot 1000
                sample_report sample_dataset sample_data sample_env
                sample_data initialState initialWorld eq_refl eq_refl eq_refl
                eq_refl) as Hsample.
  pose proof (toolbar_follows_the_embedding_mode embedded_snapshot 1000
                sample_report sample_dataset sample_data sample_env
                sample_data initialState initialWorld eq_refl eq_refl eq_refl
                eq_refl) as Hembedded.
  pose proof (toolbar_follows_the_embedding_mode sample_snapshot 1000
                sample_paginated sample_dataset sample_data sample_env
                sample_data initialState initialWorld eq_refl eq_refl eq_refl
                eq_refl) as Hinvoices.
  cbv zeta in Hsample, Hembedded, Hinvoices.
  destruct Hsample as [Hexisting _].
  destruct Hinvoices as [_ [Hpaginated _]].
  destruct Hembedded as [_ [_ [Hnew _]]].
  split; [exact Hexisting|]. split; [exact Hpaginated|exact Hnew].
Defined.

Lemma refresh_repeats_while_tokens_are_short_lived_witness :
  exists w',
    run refreshing_world
      [settled O (resolved_token (mkTokenResult "token-2" (DateAt 3600000)))
         3500000;
       settled O (resolved_token (mkTokenResult "token-3" (DateAt 3600000)))
         3550000]
    = Some w'
    /\ tasks w' = [await_387 embedded_snapshot caller_none]
    /\ timers w' = []
    /\ token_requests (trace w') = 3%nat.
Proof.
  apply (refresh_repeats_while_tokens_are_short_lived embedded_snapshot
           [(mkTokenResult "token-2" (DateAt 3600000), 3500000);
            (mkTokenResult "token-3" (DateAt 3600000), 3550000)]
           refreshing_world).
  - reflexivity.
  - intros a [<-|[<-|[]]]; reflexivity.
Defined.




Lemma refreshed_token_goes_to_the_objects_of_the_embedding_render_witness :
  (exists w' config,
     run initialWorld
       [run_embedEffect sample_snapshot 1000;
        raised O "saved" save_as_detail 5000;
        settled O (resolved_token sample_token) 5200] = Some w'
     /\ embed_calls (trace w') = [(O, config)]
     /\ setAccessToken_targets (trace w') = [])
  /\ (exists w' config,
        run initialWorld
          [run_embedEffect embedded_snapshot 1000;
           raised O "saved" save_as_detail 5000;
           settled O (resolved_token sample_token) 5200] = Some w'
        /\ embed_calls (trace w') = [(O, config)]
        /\ setAccessToken_targets (trace w') = [7%nat]).
Proof.
  split.
  - destruct (refreshed_token_goes_to_the_objects_of_the_embedding_render
                sample_snapshot 1000 5000 5200 sample_report sample_data
                "Contoso" save_as_detail sample_token initialWorld
                eq_refl eq_refl eq_refl eq_refl eq_refl eq_refl eq_refl
                eq_refl eq_refl)
      as [w' [config [Hrun [Hcalls [Htargets _]]]]].
    exists w', config. split; [exact Hrun|]. split; [exact Hcalls|exact Htargets].
  - destruct (refreshed_token_goes_to_the_objects_of_the_embedding_render
                embedded_snapshot 1000 5000 5200 sample_report sample_data
                "Contoso" save_as_detail sample_token initialWorld
                eq_refl eq_refl eq_refl eq_refl eq_refl eq_refl eq_refl
                eq_refl eq_refl)
      as [w' [config [Hrun [Hcalls [Htargets _]]]]].
    exists w', config. split; [exact Hrun|]. split; [exact Hcalls|exact Htargets].
Defined.

Lemma durations_are_measured_from_embedding_and_from_the_page_change_witness :
  exists w' e1 e2,
    deliver_all O report_embedded_world
      [report_loaded 1800; report_rendered 2000 "session-1" "Overview";
       report_pageChanged 3000; report_rendered 3200 "session-1" "Details"]
    = Some w'
    /\ logged (trace w') = [e1; e2]
    /\ LoadDuration e1 = Some (Some 800)
    /\ RenderDuration e1 = Some (Some 1000)
    /\ RenderDuration e2 = Some (Some 200).
Proof.
  destruct (durations_are_measured_from_embedding_and_from_the_page_change
              sample_snapshot 1000 1800 2000 3000 3200 sample_report
              sample_account sample_data [sample_dataset] "session-1"
              "Overview" "session-1" "Details" initialWorld
              eq_refl eq_refl eq_refl eq_refl eq_refl)
    as [w' [e1 [e2 [Hrun [Hlog [_ [_ [Hload [Hrender [_ [_ [_ Hpage]]]]]]]]]]]].
  exists w', e1, e2. split; [exact Hrun|]. split; [exact Hlog|].
  split; [exact Hload|]. split; [exact Hrender|exact Hpage].
Defined.

Lemma ViewReport_is_sent_again_after_a_rejected_log_witness :
  exists w' e1 e2,
    run report_embedded_world
      [raised O "rendered" no_detail 2000;
       settled O (resolved_id "session-1") 2100;
       settled O (resolved_page "Overview") 2200;
       settled O rejected 2300;
       raised O "pageChanged" no_detail 3000;
       raised O "rendered" no_detail 3200;
       settled O (resolved_id "session-1") 3300;
       settled O (resolved_page "Details") 3400;
       settled O resolved_void 3500] = Some w'
    /\ logged (trace w') = [e1; e2]
    /\ activity_and_correlation e1 = (Some "ViewReport", Some "session-1")
    /\ activity_and_correlation e2 = (Some "ViewReport", Some "session-1")
    /\ RenderDuration e2 = Some (Some 2200).
Proof.
  destruct (ViewReport_is_sent_again_after_a_rejected_log
              sample_snapshot 1000 2000 3000 3200 2100 2200 2300 3300 3400
              3500 sample_report sample_account sample_data [sample_dataset]
              "session-1" "Overview" "session-1" "Details" initialWorld
              eq_refl eq_refl eq_refl eq_refl eq_refl)
    as [w' [e1 [e2 [Hrun [_ [Hlog [Hfirst [_ [Hsecond [Hrender _]]]]]]]]]].
  exists w', e1, e2. split; [exact Hrun|]. split; [exact Hlog|].
  split; [exact Hfirst|]. split; [exact Hsecond|exact Hrender].
Defined.

Lemma ViewReport_logged_once_when_handlers_do_not_overlap_witness :
  exists w',
    deliver_all O report_embedded_world
      [report_loaded 1800; report_rendered 2000 "session-1" "Overview";
       report_rendered 2500 "session-1" "Overview";
       report_pageChanged 3000; report_rendered 3200 "session-1" "Details"]
    = Some w'
    /\ activity_count "ViewReport" (map Activity (logged (trace w'))) = 1%nat
    /\ (activity_count "PageChanged" (map Activity (logged (trace w'))) <= 1)%nat.
Proof.
  apply (ViewReport_logged_once_when_handlers_do_not_overlap sample_snapshot
           1000 sample_report sample_account sample_data [sample_dataset]
           initialWorld
           [report_loaded 1800; report_rendered 2000 "session-1" "Overview";
            report_rendered 2500 "session-1" "Overview";
            report_pageChanged 3000;
            report_rendered 3200 "session-1" "Details"]);
    reflexivity.
Defined.

Lemma timers_are_never_cleared_and_fire_once_witness :
  exists w',
    run initialWorld
      (map run_timerEffect [sample_snapshot; embedded_snapshot]) = Some w'
    /\ timers w' = [sample_snapshot; embedded_snapshot]
    /\ tasks w' = []
    /\ token_requests (trace w') = O.
Proof.
  destruct (timers_are_never_cleared_and_fire_once
              [sample_snapshot; embedded_snapshot] initialWorld)
    as [w' [Hrun [Htimers [Htasks [Hrequests _]]]]].
  - repeat constructor.
  - exists w'. split; [exact Hrun|]. split; [exact Htimers|].
    split; [exact Htasks|exact Hrequests].
Defined.
